(** * CrawlemonMetaPlugin: a shallow embedding of [src/__init__.py]

    The plugin is a two-call HTTP client (create_session, retrieve) followed
    by a normalisation loop over the returned records.  The embedding keeps
    the Python control flow: every method is a computation in a small
    state-and-exception monad whose state holds the log, the HTTP requests
    sent so far and the result queue.  A raised exception keeps the effects
    performed before it, as in Python. *)

From Stdlib Require Import List String Ascii ZArith NArith Bool Lia Floats.
Import ListNotations.

Set Implicit Arguments.
Set Warnings "-register-all".

Local Open Scope N_scope.

(* ===================================================================== *)
(** ** Python strings *)
(* ===================================================================== *)

(** A Python [str] is a sequence of Unicode code points. *)
Definition char := N.
Definition str := list char.

(** ASCII literals of the source, written as Rocq strings. *)
Definition pystr (s : string) : str :=
  List.map N_of_ascii (list_ascii_of_string s).

(** The non-ASCII characters the source mentions. *)
Definition COMMA : char := 44.            (* ","  *)
Definition SPACE : char := 32.            (* " "  *)
Definition FULLWIDTH_COMMA : char := 65292. (* U+FF0C *)
Definition NIAN : char := 24180.          (* U+5E74, year  *)
Definition YUE : char := 26376.           (* U+6708, month *)
Definition RI : char := 26085.            (* U+65E5, day   *)

Fixpoint str_eqb (a b : str) : bool :=
  match a, b with
  | [], [] => true
  | x :: a', y :: b' => (x =? y) && str_eqb a' b'
  | _, _ => false
  end.

(** [c in s] for a one-character needle. *)
Definition char_in (c : char) (s : str) : bool := existsb (N.eqb c) s.

(** [s.split(sep)] for a one-character separator: every occurrence cuts,
    adjacent separators give empty parts, the result is never empty. *)
Fixpoint split_on (sep : char) (s : str) : list str :=
  match s with
  | [] => [[]]
  | c :: s' =>
      if c =? sep then [] :: split_on sep s'
      else match split_on sep s' with
           | p :: ps => (c :: p) :: ps
           | [] => [[c]]
           end
  end.

(** [str.isspace] of one character (CPython's [_PyUnicode_IsWhitespace]). *)
Definition is_space (c : char) : bool :=
  ((9 <=? c) && (c <=? 13)) || ((28 <=? c) && (c <=? 32))
  || (c =? 133) || (c =? 160) || (c =? 5760)
  || ((8192 <=? c) && (c <=? 8202))
  || (c =? 8232) || (c =? 8233) || (c =? 8239) || (c =? 8287) || (c =? 12288).

Fixpoint lstrip (s : str) : str :=
  match s with
  | c :: s' => if is_space c then lstrip s' else s
  | [] => []
  end.

Definition rstrip (s : str) : str := rev (lstrip (rev s)).

(** [s.strip()] *)
Definition strip (s : str) : str := rstrip (lstrip s).

(* ===================================================================== *)
(** ** Python values that come out of [json.loads] *)
(* ===================================================================== *)

Inductive json :=
| JNull                                  (* None *)
| JBool (b : bool)
| JInt (z : Z)
| JFloat (f : float)
| JStr (s : str)
| JList (l : list json)
| JDict (d : list (str * json)).         (* insertion-ordered, keys unique *)

(** Truth value of a Python object ([if x], [not x], [x or y]). *)
Definition truthy (v : json) : bool :=
  match v with
  | JNull => false
  | JBool b => b
  | JInt z => negb (z =? 0)%Z
  | JFloat f => negb (PrimFloat.eqb f PrimFloat.zero)
  | JStr s => match s with [] => false | _ => true end
  | JList l => match l with [] => false | _ => true end
  | JDict d => match d with [] => false | _ => true end
  end.

(** [isinstance(v, dict)] and [isinstance(v, str)] *)
Definition is_dict (v : json) : bool :=
  match v with JDict _ => true | _ => false end.
Definition is_str (v : json) : bool :=
  match v with JStr _ => true | _ => false end.

Fixpoint assoc {A} (k : str) (d : list (str * A)) : option A :=
  match d with
  | [] => None
  | (k', v) :: d' => if str_eqb k k' then Some v else assoc k d'
  end.

(** [d.get(k, default)] on a dict *)
Definition dict_get {A} (d : list (str * A)) (k : str) (default : A) : A :=
  match assoc k d with Some v => v | None => default end.

(** [d[k] = v]: replace in place, or append a new key. *)
Fixpoint dict_set {A} (d : list (str * A)) (k : str) (v : A) : list (str * A) :=
  match d with
  | [] => [(k, v)]
  | (k', v') :: d' =>
      if str_eqb k k' then (k', v) :: d' else (k', v') :: dict_set d' k v
  end.

(** A text that [json.loads] is applied to (an HTTP response body, the
    [actions] option).  The text is represented by what [json.loads] makes of
    it: the value it denotes, or nothing when it is not well-formed JSON. *)
Inductive json_text :=
| Text_of (j : json)
| Garbled (raw : str).

(** [json.dumps] *)
Definition json_dumps (j : json) : json_text := Text_of j.

(* ===================================================================== *)
(** ** Exceptions *)
(* ===================================================================== *)

Inductive exn :=
| URLError
| HTTPError (code : Z)        (* subclass of URLError; raised on non-2xx *)
| JSONDecodeError             (* subclass of ValueError *)
| UnicodeEncodeError          (* subclass of ValueError *)
| UnicodeDecodeError          (* subclass of ValueError *)
| ValueError
| KeyError (key : str)
| IndexError
| AttributeError
| TypeError
| OtherError (name : str).

(** [except URLError] *)
Definition is_URLError (e : exn) : bool :=
  match e with URLError | HTTPError _ => true | _ => false end.

(** [except ValueError] *)
Definition is_ValueError (e : exn) : bool :=
  match e with
  | ValueError | JSONDecodeError | UnicodeEncodeError | UnicodeDecodeError => true
  | _ => false
  end.

(** [except json.JSONDecodeError] *)
Definition is_JSONDecodeError (e : exn) : bool :=
  match e with JSONDecodeError => true | _ => false end.

(** [except KeyError] *)
Definition is_KeyError (e : exn) : bool :=
  match e with KeyError _ => true | _ => false end.

Inductive res (A : Type) :=
| Ok (a : A)
| Raise (e : exn).
Arguments Raise {A} e.

(** [json.loads] *)
Definition json_loads (t : json_text) : res json :=
  match t with
  | Text_of j => Ok j
  | Garbled _ => Raise JSONDecodeError
  end.

(* ===================================================================== *)
(** ** [urllib.parse.quote] *)
(* ===================================================================== *)

(** UTF-8 bytes of one code point; a lone surrogate (or a number that is no
    code point) cannot be encoded. *)
Definition utf8_char (c : char) : option (list N) :=
  if c <? 128 then Some [c]
  else if c <? 2048 then Some [192 + c / 64; 128 + c mod 64]
  else if c <? 65536 then
    if (55296 <=? c) && (c <=? 57343) then None
    else Some [224 + c / 4096; 128 + (c / 64) mod 64; 128 + c mod 64]
  else if c <? 1114112 then
    Some [240 + c / 262144; 128 + (c / 4096) mod 64;
          128 + (c / 64) mod 64; 128 + c mod 64]
  else None.

(** [s.encode('utf-8', 'strict')] *)
Fixpoint utf8_encode (s : str) : option (list N) :=
  match s with
  | [] => Some []
  | c :: s' =>
      match utf8_char c, utf8_encode s' with
      | Some bs, Some rest => Some (bs ++ rest)
      | _, _ => None
      end
  end.

(** Bytes that [quote] leaves alone: letters, digits, [_.-~], and the
    default [safe='/']. *)
Definition quote_safe (b : N) : bool :=
  ((65 <=? b) && (b <=? 90)) || ((97 <=? b) && (b <=? 122))
  || ((48 <=? b) && (b <=? 57))
  || (b =? 95) || (b =? 46) || (b =? 45) || (b =? 126) || (b =? 47).

Definition hex_digit (d : N) : char := if d <? 10 then 48 + d else 55 + d.

Definition quote_byte (b : N) : str :=
  if quote_safe b then [b] else [37; hex_digit (b / 16); hex_digit (b mod 16)].

(** [quote(s)] *)
Definition quote (s : str) : res str :=
  match utf8_encode s with
  | Some bs => Ok (flat_map quote_byte bs)
  | None => Raise UnicodeEncodeError
  end.

(* ===================================================================== *)
(** ** [str.format] with keyword arguments *)
(* ===================================================================== *)

(** A format template, cut into its literal text and its replacement
    fields.  A field is named ([{isbn}]) or positional ([{}], [{0}]); fields
    with a conversion, a format spec or an attribute or index lookup are not
    represented. *)
Inductive segment :=
| Lit (text : str)
| Named (name : str)
| Positional (index : option nat).

Definition template := list segment.

(** [tmpl.format] with keyword arguments [kwargs]: fields are looked up left to right.  A named
    field missing from [kwargs] raises KeyError; a positional field indexes
    the empty positional-argument tuple and raises IndexError. *)
Fixpoint str_format (tmpl : template) (kwargs : list (str * str)) : res str :=
  match tmpl with
  | [] => Ok []
  | seg :: tmpl' =>
      match
        match seg with
        | Lit text => Ok text
        | Named name =>
            match assoc name kwargs with
            | Some v => Ok v
            | None => Raise (KeyError name)
            end
        | Positional _ => Raise IndexError
        end
      with
      | Raise e => Raise e
      | Ok piece =>
          match str_format tmpl' kwargs with
          | Ok rest => Ok (piece ++ rest)
          | Raise e => Raise e
          end
      end
  end.

(* ===================================================================== *)
(** ** Data of the plugin *)
(* ===================================================================== *)

(** The date part of a [datetime]; the formats the plugin uses carry no
    time of day. *)
Record datetime := mkdate { year : Z; month : Z; day : Z }.

(** [self.prefs] *)
Record Prefs := {
  api_key : str;
  api_base_url : str;
  request_url : template;
  max_items : Z;
  scroll_to_bottom : bool;
  actions : json_text;
  cmd : str
}.

(** [Request(api_url, data=data, headers=headers, method='POST')]; headers
    and method are the same in both calls. *)
Record Request := { req_url : str; req_data : json_text }.

(** What [urlopen(req)] followed by [response.read().decode('utf-8')]
    amounts to: an exception, or the text of the body. *)
Inductive http_reply :=
| Raises (e : exn)
| Responds (body : json_text).

(** The host's [MetaInformation] object, as the attributes the plugin sets
    on it.  [pubdate] is a datetime or None. *)
Record MetaInformation := {
  mi_title : json;
  mi_authors : json;
  mi_isbn : json;
  mi_publisher : json;
  mi_pubdate : option datetime;
  mi_comments : json;
  mi_tags : json;
  mi_identifiers : list (str * json)
}.

(** The log: one constructor per message of the source, with the values the
    message interpolates. *)
Inductive msg :=
| MSessionStart
| MSessionCreated (session_id : json)
| MSessionError (e : exn)
| MRetrieveStart (url : str)
| MActionsFallback
| MRawResponse (result : json)
| MRetrieved (n : nat)
| MRetrieveHttpError (e : exn)
| MIdentifyStart
| MSessionFailed
| MQuery (isbn : str) (title : option str) (authors : option (list str))
| MFormattedURL (url : str)
| MFormatKeyError (e : exn)
| MNoQuery
| MUsingQuery (query : str)
| MRetrieveFailed
| MInvalidItem (item : json)
| MProcessItem (item : json)
| MRawPubdate (s : str)
| MPubdateParsed (d : datetime) (fmt : str)
| MPubdateUnparsed (s : str)
| MPubdateError (e : exn)
| MNoPubdate
| MQueued (title : json)
| MIdentifyDone.

Inductive level := INFO | WARN | ERROR.

(* ===================================================================== *)
(** ** [urllib.request.Request]: what the constructor does with the URL *)
(* ===================================================================== *)

Fixpoint starts_with (prefix s : str) : bool :=
  match prefix, s with
  | [], _ => true
  | p :: prefix', c :: s' => (p =? c) && starts_with prefix' s'
  | _ :: _, [] => false
  end.

(** [urllib.parse.unwrap]: trim, drop an enclosing [<...>], drop a leading
    [URL:]. *)
Definition unwrap (url : str) : str :=
  let url := strip url in
  let url :=
    match url with
    | 60 :: rest =>
        match rev rest with
        | 62 :: inner => strip (rev inner)
        | _ => url
        end
    | _ => url
    end in
  if starts_with (pystr "URL:") url then strip (skipn 4 url) else url.

(** The part of [s] before its last [c], when [c] occurs. *)
Fixpoint before_last (c : char) (s : str) : option str :=
  match s with
  | [] => None
  | x :: s' =>
      match before_last c s' with
      | Some p => Some (x :: p)
      | None => if x =? c then Some [] else None
      end
  end.

(** [_splittag]: the URL without its fragment. *)
Definition splittag (url : str) : str :=
  match before_last 35 url with
  | Some path => path
  | None => url
  end.

(** [_splittype]: the URL has a type when it starts with one or more
    characters other than [/] and [:], followed by [:]. *)
Fixpoint has_type_from (seen : bool) (url : str) : bool :=
  match url with
  | [] => false
  | c :: url' =>
      if c =? 58 then seen
      else if c =? 47 then false
      else has_type_from true url'
  end.

Definition has_type (url : str) : bool := has_type_from false url.

(** The URLs [Request(url, ...)] accepts; for the others it raises
    ValueError ("unknown url type"). *)
Definition url_accepted (url : str) : bool :=
  has_type (splittag (unwrap url)).

(** [Request(url, data=data, headers=headers, method='POST')] *)
Definition new_Request (url : str) (data : json_text) : res Request :=
  if url_accepted url then Ok {| req_url := url; req_data := data |}
  else Raise ValueError.

(** A request the constructor accepts. *)
Definition request_ok (req : Request) : bool := url_accepted (req_url req).

(* ===================================================================== *)
(** ** The monad: state threaded through, exceptions cut the rest short *)
(* ===================================================================== *)

(** What a run leaves behind: the log entries, the requests handed to
    [urlopen] (answered or not), and the records put on the result queue,
    each in order. *)
Record world := {
  w_log : list (level * msg);
  w_sent : list Request;
  w_queue : list MetaInformation
}.

Definition empty_world : world := {| w_log := []; w_sent := []; w_queue := [] |}.

Definition M (A : Type) : Type := world -> res A * world.

Definition ret {A} (a : A) : M A := fun w => (Ok a, w).

Definition bind {A B} (c : M A) (k : A -> M B) : M B :=
  fun w =>
    match c w with
    | (Ok a, w') => k a w'
    | (Raise e, w') => (Raise e, w')
    end.

(** A pure call that may raise. *)
Definition lift {A} (r : res A) : M A := fun w => (r, w).

(** [try: c  except E as e: h e], where [catches] is the class test of [E]. *)
Definition try_except {A} (c : M A) (catches : exn -> bool) (h : exn -> M A) : M A :=
  fun w =>
    match c w with
    | (Raise e, w') => if catches e then h e w' else (Raise e, w')
    | r => r
    end.

(** Sequencing of pure calls that may raise. *)
Definition res_bind {A B} (r : res A) (k : A -> res B) : res B :=
  match r with
  | Ok a => k a
  | Raise e => Raise e
  end.

Declare Scope res_scope.
Delimit Scope res_scope with res.
Bind Scope res_scope with res.
Notation "x <- c ;; k" := (res_bind c (fun x => k))
  (at level 61, c at next level, right associativity) : res_scope.

Declare Scope py_scope.
Delimit Scope py_scope with py.
Notation "x <- c ;; k" := (bind c (fun x => k))
  (at level 61, c at next level, right associativity) : py_scope.
Notation "c ;; k" := (bind c (fun _ => k))
  (at level 61, right associativity) : py_scope.
Local Open Scope py_scope.

Definition log (lv : level) (m : msg) : M unit :=
  fun w => (Ok tt, {| w_log := w_log w ++ [(lv, m)];
                      w_sent := w_sent w; w_queue := w_queue w |}).

(** [result_queue.put(mi)] *)
Definition put (mi : MetaInformation) : M unit :=
  fun w => (Ok tt, {| w_log := w_log w; w_sent := w_sent w;
                      w_queue := w_queue w ++ [mi] |}).

(** Truth value of a [str] and of a [str]-or-None. *)
Definition str_truthy (s : str) : bool :=
  match s with [] => false | _ => true end.
Definition opt_truthy (o : option str) : bool :=
  match o with Some s => str_truthy s | None => false end.

(** [v[key]] with a string key *)
Definition py_getitem (v : json) (key : str) : res json :=
  match v with
  | JDict d => match assoc key d with
               | Some x => Ok x
               | None => Raise (KeyError key)
               end
  | _ => Raise TypeError
  end.

(** [v.get(key, default)]: only a dict has the method. *)
Definition py_get (v : json) (key : str) (default : json) : res json :=
  match v with
  | JDict d => Ok (dict_get d key default)
  | _ => Raise AttributeError
  end.

(** [len(v)] *)
Definition py_len (v : json) : res nat :=
  match v with
  | JList l => Ok (List.length l)
  | JStr s => Ok (List.length s)
  | JDict d => Ok (List.length d)
  | _ => Raise TypeError
  end.

(** The items [for item in v] visits: the elements of a list, the
    characters of a string, the keys of a dict. *)
Definition py_iter (v : json) : res (list json) :=
  match v with
  | JList l => Ok l
  | JStr s => Ok (List.map (fun c => JStr [c]) s)
  | JDict d => Ok (List.map (fun kv => JStr (fst kv)) d)
  | _ => Raise TypeError
  end.

(** [v.strip()]: only a str has the method. *)
Definition py_strip (v : json) : res str :=
  match v with
  | JStr s => Ok (strip s)
  | _ => Raise AttributeError
  end.

(* ===================================================================== *)
(** ** The plugin *)
(* ===================================================================== *)

(** The formats of the pubdate loop, in source order:
    [%Y-%m-%d], [%Y(nian)%m(yue)%d(ri)], [%Y(nian)%m(yue)], [%Y/%m/%d],
    [%Y.%m.%d], where (nian), (yue), (ri) are the CJK characters for year,
    month and day. *)
Definition PUBDATE_FORMATS : list str :=
  [ pystr "%Y-%m-%d";
    pystr "%Y" ++ [NIAN] ++ pystr "%m" ++ [YUE] ++ pystr "%d" ++ [RI];
    pystr "%Y" ++ [NIAN] ++ pystr "%m" ++ [YUE];
    pystr "%Y/%m/%d";
    pystr "%Y.%m.%d" ].

(** [fields] of the retrieve request *)
Definition FIELDS : list str :=
  List.map pystr ["title"; "authors"; "isbn"; "publisher"; "pubdate"; "comments"; "tags"]%string.

(** The string-or-list rule the loop applies to [authors] and to [tags]
    (source lines 141-145 and 177-181). *)
Definition split_field (v : json) : json :=
  match v with
  | JStr s =>
      if char_in COMMA s || char_in SPACE s || char_in FULLWIDTH_COMMA s
      then JList (List.map JStr (split_on COMMA s))
      else JList [JStr s]
  | _ => v
  end.

Section Plugin.

(** [datetime.strptime(date_string, format)] of the Python library. *)
Variable strptime : str -> str -> res datetime.

(** The remote service, as seen through [urlopen]. *)
Variable urlopen : Request -> http_reply.

Variable prefs : Prefs.

(** [with urlopen(req) as response: response.read().decode('utf-8')] *)
Definition http_call (req : Request) : M json_text :=
  fun w =>
    let w' := {| w_log := w_log w; w_sent := w_sent w ++ [req];
                 w_queue := w_queue w |} in
    match urlopen req with
    | Raises e => (Raise e, w')
    | Responds body => (Ok body, w')
    end.

(** [api_url] and [data] of the session call (lines 46-47); they make the
    request once [Request] has accepted the URL. *)
Definition session_request : Request :=
  {| req_url := api_base_url prefs ++ pystr "/create_session";
     req_data := json_dumps (JDict [(pystr "api_key", JStr (api_key prefs))]) |}.

(** Lines 44-57.  [Request(api_url, ...)] (line 49) stands before the
    [try]: the ValueError it raises for a URL without a type leaves
    [create_session], and [urlopen] is not called. *)
Definition create_session : M json :=
  log INFO MSessionStart ;;
  req <- lift (new_Request (req_url session_request)
                           (req_data session_request)) ;;
  try_except
    (body <- http_call req ;;
     session_data <- lift (json_loads body) ;;
     shown <- lift (py_getitem session_data (pystr "session_id")) ;;
     log INFO (MSessionCreated shown) ;;
     lift (py_getitem session_data (pystr "session_id")))
    is_URLError
    (fun e => log ERROR (MSessionError e) ;; ret JNull).

(** [api_url] and [data] of the retrieve call (lines 61, 70-79); they make
    the request once [Request] has accepted the URL. *)
Definition retrieve_request (session_id : json) (query : str)
           (fields : list str) (url : str) (acts : json) : Request :=
  {| req_url := api_base_url prefs ++ pystr "/retrieve";
     req_data := json_dumps (JDict
       [ (pystr "cmd", JStr (if str_truthy (cmd prefs) then cmd prefs else query));
         (pystr "url", JStr url);
         (pystr "fields", JList (List.map JStr fields));
         (pystr "session_id", session_id);
         (pystr "scroll_to_bottom", JBool (scroll_to_bottom prefs));
         (pystr "max_items", JInt (max_items prefs));
         (pystr "local", JBool true);
         (pystr "actions", acts) ]) |}.

(** Lines 59-92.  Here too [Request(api_url, ...)] (line 82) stands before
    the [try] that guards [urlopen]. *)
Definition retrieve_data (session_id : json) (query : str)
           (fields : list str) (url : str) : M json :=
  log INFO (MRetrieveStart url) ;;
  acts <- try_except (lift (json_loads (actions prefs)))
            is_JSONDecodeError
            (fun _ => log WARN MActionsFallback ;; ret (JList [])) ;;
  req <- lift (new_Request
                 (req_url (retrieve_request session_id query fields url acts))
                 (req_data (retrieve_request session_id query fields url acts))) ;;
  try_except
    (body <- http_call req ;;
     result <- lift (json_loads body) ;;
     log INFO (MRawResponse result) ;;
     result <- lift (py_get result (pystr "result") (JList [])) ;;
     n <- lift (py_len result) ;;
     log INFO (MRetrieved n) ;;
     ret result)
    is_URLError
    (fun e => log ERROR (MRetrieveHttpError e) ;; ret JNull).

(** The [for fmt in (...)] loop with its [else] clause (lines 157-167):
    a format that parses ends the loop ([break]), a ValueError moves on
    to the next format ([continue]), the [else] runs when no format
    parsed. *)
Fixpoint try_formats (pubdate_str : str) (fmts : list str) : M (option datetime) :=
  match fmts with
  | [] => log WARN (MPubdateUnparsed pubdate_str) ;; ret None
  | fmt :: rest =>
      parsed <- try_except
                  (pubdate <- lift (strptime pubdate_str fmt) ;;
                   log INFO (MPubdateParsed pubdate fmt) ;;
                   ret (Some pubdate))
                  is_ValueError
                  (fun _ => ret None) ;;
      match parsed with
      | Some pubdate => ret (Some pubdate)
      | None => try_formats pubdate_str rest
      end
  end.

(** Lines 154-173: the value of [mi.pubdate]. *)
Definition parse_pubdate (pubdate_str : str) : M (option datetime) :=
  if str_truthy pubdate_str then
    try_except (try_formats pubdate_str PUBDATE_FORMATS)
      (fun _ => true)
      (fun e => log ERROR (MPubdateError e) ;; ret None)
  else
    log INFO MNoPubdate ;; ret None.

(** Lines 139-188: the loop body for an item that is a dict. *)
Definition normalize_item (item : list (str * json)) : M unit :=
  log INFO (MProcessItem (JDict item)) ;;
  let authors := split_field (dict_get item (pystr "authors") (JList [])) in
  let title := dict_get item (pystr "title") (JStr []) in
  let isbn := dict_get item (pystr "isbn") (JStr []) in
  let publisher := dict_get item (pystr "publisher") (JStr []) in
  pubdate_str <- lift (py_strip (dict_get item (pystr "pubdate") (JStr []))) ;;
  log INFO (MRawPubdate pubdate_str) ;;
  pubdate <- parse_pubdate pubdate_str ;;
  let comments := dict_get item (pystr "comments") (JStr []) in
  let tags := split_field (dict_get item (pystr "tags") (JList [])) in
  put {| mi_title := title; mi_authors := authors; mi_isbn := isbn;
         mi_publisher := publisher; mi_pubdate := pubdate;
         mi_comments := comments; mi_tags := tags;
         mi_identifiers := if truthy isbn then [(pystr "isbn", isbn)] else [] |} ;;
  log INFO (MQueued title).

(** Lines 135-188: [for item in data]. *)
Fixpoint process_items (data : list json) : M unit :=
  match data with
  | [] => ret tt
  | item :: rest =>
      match item with
      | JDict d => normalize_item d
      | _ => log INFO (MInvalidItem item)
      end ;;
      process_items rest
  end.

(** Lines 105-111: [format_params].  [quote] is the only call that can
    raise here. *)
Definition build_format_params (isbn : str) (title : option str)
           (authors : option (list str)) : res (list (str * str)) :=
  let format_params :=
    [(pystr "isbn", []); (pystr "title", []); (pystr "author", [])] in
  (format_params <-
    (if str_truthy isbn
     then q <- quote isbn ;; Ok (dict_set format_params (pystr "isbn") q)
     else Ok format_params) ;;
  format_params <-
    (match title with
     | Some t =>
         if str_truthy t
         then q <- quote t ;; Ok (dict_set format_params (pystr "title") q)
         else Ok format_params
     | None => Ok format_params
     end) ;;
  match authors with
  | Some (a :: _) =>
      if str_truthy a
      then q <- quote a ;; Ok (dict_set format_params (pystr "author") q)
      else Ok format_params
  | _ => Ok format_params
  end)%res.

Definition identify (title : option str) (authors : option (list str))
           (identifiers : list (str * str)) : M unit :=
  log INFO MIdentifyStart ;;
  session_id <- create_session ;;
  if negb (truthy session_id) then log ERROR MSessionFailed
  else
    let isbn := dict_get identifiers (pystr "isbn") [] in
    log INFO (MQuery isbn title authors) ;;
    format_params <- lift (build_format_params isbn title authors) ;;
    formatted <- try_except
                   (formatted_url <- lift (str_format (request_url prefs) format_params) ;;
                    log INFO (MFormattedURL formatted_url) ;;
                    ret (Some formatted_url))
                   is_KeyError
                   (fun e => log ERROR (MFormatKeyError e) ;; ret None) ;;
    match formatted with
    | None => ret tt
    | Some formatted_url =>
        let query := if str_truthy isbn then Some isbn else title in
        if negb (opt_truthy query) then log ERROR MNoQuery
        else
          (* past the check, [query] is a non-empty str *)
          let query := match query with Some q => q | None => [] end in
          log INFO (MUsingQuery query) ;;
          data <- retrieve_data session_id query FIELDS formatted_url ;;
          if negb (truthy data) then log ERROR MRetrieveFailed
          else
            items <- lift (py_iter data) ;;
            process_items items ;;
            log INFO MIdentifyDone
    end.

End Plugin.

(* ===================================================================== *)
(** ** A reference [strptime] for the directives the plugin uses *)
(* ===================================================================== *)

(** [datetime.strptime] restricted to formats made of [%Y], [%m], [%d] and
    literal characters without case, following CPython's [_strptime]: the
    format becomes a regular expression, the match must consume the whole
    string, and the fields must form a calendar date.  Decimal digits are the
    ASCII ones only: where a date is written with other Unicode decimal
    digits (full-width ones, say), which Python's [\d] matches as well, this
    reference reports a ValueError.  It serves to run the plugin on concrete
    records written with ASCII digits; the theorems about the loop are
    stated for any [strptime]. *)
Module Strptime.

Inductive directive := DirY | Dirm | Dird | DirLit (c : char).

Definition directive_of (c : char) : option directive :=
  if c =? 89 then Some DirY
  else if c =? 109 then Some Dirm
  else if c =? 100 then Some Dird
  else None.

Fixpoint parse_format (fmt : str) : option (list directive) :=
  match fmt with
  | [] => Some []
  | c :: rest =>
      if c =? 37 then
        match rest with
        | d :: rest' =>
            match directive_of d with
            | Some dir => option_map (cons dir) (parse_format rest')
            | None => None
            end
        | [] => None
        end
      else option_map (cons (DirLit c)) (parse_format rest)
  end.

Definition is_digit (c : char) : bool := (48 <=? c) && (c <=? 57).
Definition between (lo hi c : char) : bool := (lo <=? c) && (c <=? hi).

(** The alternatives of a directive's group, in the order the regular
    expression lists them:
    [%Y] is [\d\d\d\d], [%m] is [1[0-2]|0[1-9]|[1-9]],
    [%d] is [3[0-1]|[1-2]\d|0[1-9]|[1-9]| [1-9]]. *)
Definition alternatives (d : directive) : list (list (char -> bool)) :=
  match d with
  | DirY => [[is_digit; is_digit; is_digit; is_digit]]
  | Dirm => [[N.eqb 49; between 48 50]; [N.eqb 48; between 49 57]; [between 49 57]]
  | Dird => [[N.eqb 51; between 48 49]; [between 49 50; is_digit];
             [N.eqb 48; between 49 57]; [between 49 57];
             [N.eqb 32; between 49 57]]
  | DirLit c => [[N.eqb c]]
  end.

Fixpoint match_classes (p : list (char -> bool)) (s : str) : option (str * str) :=
  match p with
  | [] => Some ([], s)
  | cls :: p' =>
      match s with
      | c :: s' =>
          if cls c then
            match match_classes p' s' with
            | Some (m, rest) => Some (c :: m, rest)
            | None => None
            end
          else None
      | [] => None
      end
  end.

(** Backtracking match of the groups in sequence; the first match wins. *)
Fixpoint match_seq (ds : list directive) (s : str)
  : option (list (directive * str) * str) :=
  match ds with
  | [] => Some ([], s)
  | d :: ds' =>
      (fix try_alts (alts : list (list (char -> bool))) :=
         match alts with
         | [] => None
         | alt :: alts' =>
             match match_classes alt s with
             | Some (m, rest) =>
                 match match_seq ds' rest with
                 | Some (caps, r) => Some ((d, m) :: caps, r)
                 | None => try_alts alts'
                 end
             | None => try_alts alts'
             end
         end) (alternatives d)
  end.

(** [int(group)]; the day group may start with a space. *)
Definition int_of (m : str) : Z :=
  fold_left (fun acc c => if is_digit c then (acc * 10 + Z.of_N (c - 48))%Z else acc)
            m 0%Z.

Definition field (which : directive -> bool) (default : Z)
           (caps : list (directive * str)) : Z :=
  match find (fun cap => which (fst cap)) caps with
  | Some cap => int_of (snd cap)
  | None => default
  end.

Definition is_leap (y : Z) : bool :=
  ((y mod 4 =? 0) && (negb (y mod 100 =? 0) || (y mod 400 =? 0)))%Z.

Definition days_in_month (y m : Z) : Z :=
  (if m =? 2 then (if is_leap y then 29 else 28)
   else if (m =? 4) || (m =? 6) || (m =? 9) || (m =? 11) then 30
   else 31)%Z.

Definition strptime (date_string fmt : str) : res datetime :=
  match parse_format fmt with
  | None => Raise ValueError
  | Some ds =>
      match match_seq ds date_string with
      | None => Raise ValueError
      | Some (caps, rest) =>
          if str_truthy rest then Raise ValueError
          else
            let y := field (fun d => match d with DirY => true | _ => false end) 1900%Z caps in
            let m := field (fun d => match d with Dirm => true | _ => false end) 1%Z caps in
            let d := field (fun d => match d with Dird => true | _ => false end) 1%Z caps in
            if ((1 <=? y) && (d <=? days_in_month y m))%Z
            then Ok (mkdate y m d)
            else Raise ValueError
      end
  end.

End Strptime.

(* ===================================================================== *)
(** ** Sample configuration and sample service *)
(* ===================================================================== *)

(** The option defaults of the source (lines 23-38), with an ASCII command
    string and a non-empty key. *)
Definition sample_prefs : Prefs :=
  {| api_key := pystr "key";
     api_base_url := pystr "https://crawlemon.fsotool.com/api/v1";
     request_url :=
       [ Lit (pystr "https://pdc.capub.cn/search.html#/quick?type=%E5%9B%BE%E4%B9%A6&search=");
         Named (pystr "isbn"); Lit (pystr " ");
         Named (pystr "title"); Lit (pystr " ");
         Named (pystr "author") ];
     max_items := (-1)%Z;
     scroll_to_bottom := false;
     actions := Text_of (JList []);
     cmd := pystr "get book metadata" |}.

Definition with_request_url (p : Prefs) (t : template) : Prefs :=
  {| api_key := api_key p; api_base_url := api_base_url p; request_url := t;
     max_items := max_items p; scroll_to_bottom := scroll_to_bottom p;
     actions := actions p; cmd := cmd p |}.


Definition with_actions (p : Prefs) (a : json_text) : Prefs :=
  {| api_key := api_key p; api_base_url := api_base_url p;
     request_url := request_url p;
     max_items := max_items p; scroll_to_bottom := scroll_to_bottom p;
     actions := a; cmd := cmd p |}.

(** A service that answers create_session with [session_reply] and every
    other request with [retrieve_reply]. *)
Definition service (p : Prefs) (session_reply retrieve_reply : http_reply)
  : Request -> http_reply :=
  fun req =>
    if str_eqb (req_url req) (api_base_url p ++ pystr "/create_session")
    then session_reply
    else retrieve_reply.

Definition session_s1 : http_reply :=
  Responds (Text_of (JDict [(pystr "session_id", JStr (pystr "s1"))])).

Definition result_of (records : json) : http_reply :=
  Responds (Text_of (JDict [(pystr "result", records)])).

(** " 2020(nian)10(yue) ": year and month in the third format, with blanks
    around. *)
Definition sample_raw_pubdate : str :=
  pystr " 2020" ++ [NIAN] ++ pystr "10" ++ [YUE] ++ pystr " ".

Definition sample_record : list (str * json) :=
  [ (pystr "title", JStr (pystr "The C Programming Language"));
    (pystr "authors", JStr (pystr "Kernighan,Ritchie"));
    (pystr "isbn", JStr (pystr "9780131103627"));
    (pystr "pubdate", JStr sample_raw_pubdate) ].

(** The query of the specification's formatting scenario. *)
Definition sample_title : option str := Some (pystr "Go").
Definition sample_authors : option (list str) := Some [pystr "Jane Doe"].
Definition sample_identifiers : list (str * str) := [(pystr "isbn", pystr "123")].

Definition sample_format_params : list (str * str) :=
  [ (pystr "isbn", pystr "123"); (pystr "title", pystr "Go");
    (pystr "author", pystr "Jane%20Doe") ].

Definition sample_url : str :=
  pystr "https://pdc.capub.cn/search.html#/quick?type=%E5%9B%BE%E4%B9%A6&search=123 Go Jane%20Doe".

(** A template with a placeholder the plugin does not know by name, and one
    with a positional placeholder. *)
Definition prefs_unknown_name : Prefs :=
  with_request_url sample_prefs
    [Lit (pystr "https://example.org/?q="); Named (pystr "isbn");
     Lit (pystr "&p="); Named (pystr "publisher")].

Definition prefs_positional : Prefs :=
  with_request_url sample_prefs
    [Lit (pystr "https://example.org/?q="); Positional None].


(** A record whose pubdate is blank, one whose pubdate is null, and a title
    that holds a lone surrogate. *)
Definition blank_record : list (str * json) :=
  [ (pystr "title", JStr (pystr "T")); (pystr "pubdate", JStr (pystr "   ")) ].

Definition null_pubdate_record : list (str * json) :=
  [ (pystr "title", JStr (pystr "A")); (pystr "pubdate", JNull) ].

Definition surrogate_title : option str := Some [55296].

(** The session reply and the retrieve reply as the dicts they decode to. *)
Definition session_s1_dict : list (str * json) :=
  [(pystr "session_id", JStr (pystr "s1"))].

(* ===================================================================== *)
(** ** What the specification says, in its own words *)
(* ===================================================================== *)

(** The delimiter rule of the specification: comma, then ASCII space, then
    full-width comma; the first delimiter present splits the whole string,
    and the string stays whole only when none is present. *)
Definition spec_split (s : str) : list str :=
  if char_in COMMA s then split_on COMMA s
  else if char_in SPACE s then split_on SPACE s
  else if char_in FULLWIDTH_COMMA s then split_on FULLWIDTH_COMMA s
  else [s].

(** The first format of the list that parses the string, with its date. *)
Fixpoint first_success (strptime : str -> str -> res datetime)
         (s : str) (fmts : list str) : option (datetime * str) :=
  match fmts with
  | [] => None
  | fmt :: rest =>
      match strptime s fmt with
      | Ok d => Some (d, fmt)
      | Raise _ => first_success strptime s rest
      end
  end.

(** The pubdate of the specification for a trimmed string: absent when the
    string is empty, else the date of the first format that parses it,
    absent when none does. *)
Definition spec_pubdate (strptime : str -> str -> res datetime) (s : str)
  : option datetime :=
  if str_truthy s then option_map fst (first_success strptime s PUBDATE_FORMATS)
  else None.

(** What the pubdate step logs: a note for the empty string, the format that
    parsed, or the warning that none did. *)
Definition spec_pubdate_log (strptime : str -> str -> res datetime) (s : str)
  : list (level * msg) :=
  if str_truthy s then
    match first_success strptime s PUBDATE_FORMATS with
    | Some (d, fmt) => [(INFO, MPubdateParsed d fmt)]
    | None => [(WARN, MPubdateUnparsed s)]
    end
  else [(INFO, MNoPubdate)].

(** The ordered format list of the specification: YYYY-MM-DD,
    YYYY(nian)MM(yue)DD(ri), YYYY(nian)MM(yue), YYYY/MM/DD, YYYY.MM.DD, each
    written as the [strptime] pattern it stands for. *)
Definition SPEC_FORMATS : list str :=
  [ pystr "%Y-%m-%d";
    pystr "%Y" ++ [NIAN] ++ pystr "%m" ++ [YUE] ++ pystr "%d" ++ [RI];
    pystr "%Y" ++ [NIAN] ++ pystr "%m" ++ [YUE];
    pystr "%Y/%m/%d";
    pystr "%Y.%m.%d" ].

(** A string with no whitespace at either end: what is left of a string
    once its leading and trailing whitespace is trimmed. *)
Definition trimmed (s : str) : bool :=
  match s with
  | [] => true
  | c :: _ => negb (is_space c)
  end
  && match rev s with
     | [] => true
     | c :: _ => negb (is_space c)
     end.

(** [strptime] reports a string it cannot parse with a ValueError. *)
Definition only_ValueError (r : res datetime) : bool :=
  match r with
  | Ok _ => true
  | Raise e => is_ValueError e
  end.

(** The transport-level failures of the session call the specification
    lists: connection error, non-2xx status, malformed JSON body. *)
Inductive transport_failure : http_reply -> Prop :=
| tf_connection : transport_failure (Raises URLError)
| tf_status (code : Z) : transport_failure (Raises (HTTPError code))
| tf_malformed (raw : str) : transport_failure (Responds (Garbled raw)).

(** The value substituted for a placeholder: the percent-encoding of the
    field, or the empty string when the field is unset or empty. *)
Definition encoded_or_empty (field : option str) : res str :=
  match field with
  | Some s => if str_truthy s then quote s else Ok []
  | None => Ok []
  end.

(** [authors[0]] when there is one *)
Definition first_author (authors : option (list str)) : option str :=
  match authors with
  | Some (a :: _) => Some a
  | _ => None
  end.

(** The placeholder names the plugin fills in. *)
Definition recognized (name : str) : bool :=
  str_eqb name (pystr "isbn") || str_eqb name (pystr "title")
  || str_eqb name (pystr "author").

(** A segment that [format] resolves with the three recognized names. *)
Definition resolvable (seg : segment) : bool :=
  match seg with
  | Lit _ => true
  | Named name => recognized name
  | Positional _ => false
  end.

(** What a resolvable segment contributes to the formatted URL. *)
Definition fill (qi qt qa : str) (seg : segment) : str :=
  match seg with
  | Lit text => text
  | Named name =>
      if str_eqb name (pystr "isbn") then qi
      else if str_eqb name (pystr "title") then qt
      else if str_eqb name (pystr "author") then qa
      else []
  | Positional _ => []
  end.

(* ===================================================================== *)
(** ** Vocabulary of the theorems *)
(* ===================================================================== *)

(** The world after more log entries, requests and queued records. *)
Definition extend (w : world) (logs : list (level * msg))
           (sent : list Request) (queued : list MetaInformation) : world :=
  {| w_log := w_log w ++ logs;
     w_sent := w_sent w ++ sent;
     w_queue := w_queue w ++ queued |}.

(** The action list the retrieve request carries: the parsed option, or the
    empty list when the option is not JSON; and the warning logged then. *)
Definition effective_actions (p : Prefs) : json :=
  match actions p with
  | Text_of a => a
  | Garbled _ => JList []
  end.

Definition actions_log (p : Prefs) : list (level * msg) :=
  match actions p with
  | Text_of _ => []
  | Garbled _ => [(WARN, MActionsFallback)]
  end.

(** Two worlds with the same requests sent and the same records queued;
    their logs may differ. *)
Definition agree (w1 w2 : world) : Prop :=
  w_sent w1 = w_sent w2 /\ w_queue w1 = w_queue w2.

(** Two computations that, started in agreeing worlds, end alike: same
    value or same exception, and agreeing worlds again. *)
Definition similar {A} (c1 c2 : M A) : Prop :=
  forall w1 w2, agree w1 w2 ->
    fst (c1 w1) = fst (c2 w2) /\ agree (snd (c1 w1)) (snd (c2 w2)).

(** The session obtained from a finished [create_session]: a truthy value. *)
Definition is_session (r : res json) : bool :=
  match r with
  | Ok sid => truthy sid
  | Raise _ => false
  end.

(** [sep.join(parts)] for a one-character separator. *)
Fixpoint join (sep : char) (parts : list str) : str :=
  match parts with
  | [] => []
  | p :: rest =>
      match rest with
      | [] => p
      | _ :: _ => p ++ sep :: join sep rest
      end
  end.

(** The characters a percent-encoded value is made of: the ones [quote]
    leaves alone, and the percent sign. *)
Definition url_safe (c : char) : bool := quote_safe c || (c =? 37).

(** The trimmed pubdate string of a record whose pubdate is a string or
    missing. *)
Definition pubdate_text (item : list (str * json)) : str :=
  match dict_get item (pystr "pubdate") (JStr []) with
  | JStr s => strip s
  | _ => []
  end.

(** The record the loop builds from a raw record, given the pubdate it
    arrived at: every other field is read off the raw record. *)
Definition record_of (item : list (str * json)) (pubdate : option datetime)
  : MetaInformation :=
  {| mi_title := dict_get item (pystr "title") (JStr []);
     mi_authors := split_field (dict_get item (pystr "authors") (JList []));
     mi_isbn := dict_get item (pystr "isbn") (JStr []);
     mi_publisher := dict_get item (pystr "publisher") (JStr []);
     mi_pubdate := pubdate;
     mi_comments := dict_get item (pystr "comments") (JStr []);
     mi_tags := split_field (dict_get item (pystr "tags") (JList []));
     mi_identifiers :=
       if truthy (dict_get item (pystr "isbn") (JStr []))
       then [(pystr "isbn", dict_get item (pystr "isbn") (JStr []))]
       else [] |}.

(** The canonical record of a raw record whose pubdate is a string or
    missing. *)
Definition canonical (strptime : str -> str -> res datetime)
           (item : list (str * json)) : MetaInformation :=
  record_of item (spec_pubdate strptime (pubdate_text item)).

(** The mappings among the entries of a list, in order. *)
Fixpoint mappings (data : list json) : list (list (str * json)) :=
  match data with
  | [] => []
  | JDict d :: rest => d :: mappings rest
  | _ :: rest => mappings rest
  end.

(** An entry the loop gets through: not a mapping, or a mapping whose
    pubdate is a string (or missing) on which [strptime] fails by
    ValueError only. *)
Definition well_shaped (strptime : str -> str -> res datetime) (item : json) : bool :=
  match item with
  | JDict d =>
      is_str (dict_get d (pystr "pubdate") (JStr []))
      && forallb (fun fmt => only_ValueError (strptime (pubdate_text d) fmt))
                 PUBDATE_FORMATS
  | _ => true
  end.

(** The identifier map of a record holds the isbn exactly when the isbn is
    truthy. *)
Definition identifier_rule (mi : MetaInformation) : Prop :=
  mi_identifiers mi =
  if truthy (mi_isbn mi) then [(pystr "isbn", mi_isbn mi)] else [].

(** [isinstance(v, list)] *)
Definition is_list (v : json) : bool :=
  match v with JList _ => true | _ => false end.

(** The values [len] accepts. *)
Definition has_len (v : json) : bool :=
  match v with
  | JList _ | JStr _ | JDict _ => true
  | _ => false
  end.

(** The log entries of a loop over entries that are all skipped. *)
Definition skipped_log (items : list json) : list (level * msg) :=
  List.map (fun item => (INFO, MInvalidItem item)) items.

(** Lines 131-190 of [identify]: what it does with the value
    [retrieve_data] returned. *)
Definition after_retrieve (strptime : str -> str -> res datetime) (data : json)
  : M unit :=
  if negb (truthy data) then log ERROR MRetrieveFailed
  else
    items <- lift (py_iter data) ;;
    process_items strptime items ;;
    log INFO MIdentifyDone.

(** The log of [identify] up to the retrieval call. *)
Definition log_before_retrieval (sid : json) (isbn : str) (title : option str)
           (authors : option (list str)) (url q : str) : list (level * msg) :=
  [(INFO, MIdentifyStart); (INFO, MSessionStart); (INFO, MSessionCreated sid);
   (INFO, MQuery isbn title authors); (INFO, MFormattedURL url);
   (INFO, MUsingQuery q)].

(** Line 121: the query is the ISBN when there is one, else the title. *)
Definition query_of (isbn : str) (title : option str) : option str :=
  if str_truthy isbn then Some isbn else title.

(** The retrieve request of the sample query. *)
Definition sample_retrieve_request : Request :=
  retrieve_request sample_prefs (JStr (pystr "s1")) (pystr "123") FIELDS
                   sample_url (effective_actions sample_prefs).

(* ===================================================================== *)
(** ** Running computations *)
(* ===================================================================== *)

Unset Implicit Arguments.

(** String literals stay folded while a run is simplified. *)
Arguments pystr : simpl never.

Lemma extend_nil (w : world) : extend w [] [] [] = w.
Proof. destruct w; unfold extend; simpl; now rewrite !app_nil_r. Qed.

Lemma extend_extend (w : world) l1 s1 q1 l2 s2 q2 :
  extend (extend w l1 s1 q1) l2 s2 q2 = extend w (l1 ++ l2) (s1 ++ s2) (q1 ++ q2).
Proof. unfold extend; simpl; now rewrite !app_assoc. Qed.

Lemma log_run lv m w : log lv m w = (Ok tt, extend w [(lv, m)] [] []).
Proof. unfold log, extend; now rewrite !app_nil_r. Qed.

Lemma put_run mi w : put mi w = (Ok tt, extend w [] [] [mi]).
Proof. unfold put, extend; now rewrite !app_nil_r. Qed.

Lemma http_call_run urlopen req w :
  http_call urlopen req w =
  (match urlopen req with Raises e => Raise e | Responds body => Ok body end,
   extend w [] [req] []).
Proof.
  unfold http_call, extend; rewrite !app_nil_r; now destruct (urlopen req).
Qed.

Lemma new_Request_ok (req : Request) :
  request_ok req = true -> new_Request (req_url req) (req_data req) = Ok req.
Proof.
  unfold request_ok, new_Request; intros ->; now destruct req.
Qed.

Lemma new_Request_rejected (req : Request) :
  request_ok req = false ->
  new_Request (req_url req) (req_data req) = Raise ValueError.
Proof. unfold request_ok, new_Request; now intros ->. Qed.

Lemma bind_ok {A B} (c : M A) (k : A -> M B) w a w' :
  c w = (Ok a, w') -> bind c k w = k a w'.
Proof. intros H; unfold bind; now rewrite H. Qed.

(** One step of a run: expose the next primitive and execute it. *)
Ltac run_step :=
  first
    [ rewrite new_Request_ok by assumption
    | rewrite new_Request_rejected by assumption
    | rewrite log_run
    | rewrite put_run
    | rewrite http_call_run
    | rewrite !extend_extend
    | rewrite !app_nil_r
    | progress cbv beta iota zeta delta [bind ret lift try_except]
    | progress cbn [is_JSONDecodeError is_URLError is_KeyError is_ValueError
                    json_loads py_get py_getitem py_len py_strip py_iter negb]
    | progress simpl app ].

Ltac run := repeat run_step.

(* ===================================================================== *)
(** ** Runs that differ only in what they log *)
(* ===================================================================== *)

Section Similar.

Context {A B : Type}.

Lemma similar_ret (a : A) : similar (ret a) (ret a).
Proof. intros w1 w2 H; now split. Qed.

Lemma similar_lift (r : res A) : similar (lift r) (lift r).
Proof. intros w1 w2 H; now split. Qed.

Lemma similar_bind (c1 c2 : M A) (k1 k2 : A -> M B) :
  similar c1 c2 -> (forall a, similar (k1 a) (k2 a)) ->
  similar (bind c1 k1) (bind c2 k2).
Proof.
  intros Hc Hk w1 w2 H; unfold bind.
  destruct (Hc w1 w2 H) as [Hr Hw].
  destruct (c1 w1) as [[a1|e1] w1'], (c2 w2) as [[a2|e2] w2'];
    simpl in Hr, Hw; try discriminate Hr.
  - inversion Hr; subst a2; now apply Hk.
  - inversion Hr; subst e2; now split.
Qed.

Lemma similar_try_except (c1 c2 : M A) (catches : exn -> bool)
      (h1 h2 : exn -> M A) :
  similar c1 c2 -> (forall e, similar (h1 e) (h2 e)) ->
  similar (try_except c1 catches h1) (try_except c2 catches h2).
Proof.
  intros Hc Hh w1 w2 H; unfold try_except.
  destruct (Hc w1 w2 H) as [Hr Hw].
  destruct (c1 w1) as [[a1|e1] w1'], (c2 w2) as [[a2|e2] w2'];
    simpl in Hr, Hw; try discriminate Hr.
  - inversion Hr; subst a2; now split.
  - inversion Hr; subst e2.
    destruct (catches e1); [now apply Hh | now split].
Qed.

(** Dropping a log entry on one side changes nothing else. *)
Lemma similar_skip_log (lv : level) (m : msg) (c1 c2 : M A) :
  similar c1 c2 -> similar (bind (log lv m) (fun _ => c1)) c2.
Proof.
  intros Hc w1 w2 [Hs Hq]; unfold bind, log; apply Hc; now split.
Qed.

End Similar.

Lemma similar_log (lv1 lv2 : level) (m1 m2 : msg) :
  similar (log lv1 m1) (log lv2 m2).
Proof. intros w1 w2 H; now split. Qed.

Lemma similar_put (mi : MetaInformation) : similar (put mi) (put mi).
Proof.
  intros w1 w2 [Hs Hq]; unfold put; simpl; repeat split; [exact Hs|].
  now rewrite Hq.
Qed.

Lemma similar_http_call (urlopen : Request -> http_reply) (req : Request) :
  similar (http_call urlopen req) (http_call urlopen req).
Proof.
  intros w1 w2 [Hs Hq]; unfold http_call.
  destruct (urlopen req); simpl; (split; [reflexivity|split; [|exact Hq]]);
    now rewrite Hs.
Qed.

Create HintDb similar.
#[export] Hint Resolve similar_ret similar_lift similar_log similar_put
  similar_http_call : similar.

(** Decompose a goal [similar c c'] along the structure both sides share. *)
Ltac similar_step :=
  cbv beta zeta;
  match goal with
  | |- similar (bind _ _) (bind _ _) => apply similar_bind; [|intros ?]
  | |- similar (try_except _ _ _) (try_except _ _ _) =>
      apply similar_try_except; [|intros ?]
  | |- similar (if ?b then _ else _) (if ?b then _ else _) => destruct b
  | |- similar (match ?x with Some _ => _ | None => _ end)
               (match ?x with Some _ => _ | None => _ end) => destruct x
  | |- similar _ _ => solve [auto with similar]
  end.

(* ===================================================================== *)
(** ** Splitting of authors and tags *)
(* ===================================================================== *)

Lemma split_on_absent (sep : char) (s : str) :
  char_in sep s = false -> split_on sep s = [s].
Proof.
  unfold char_in; induction s as [|c s IH]; simpl; intros H; [reflexivity|].
  apply orb_false_iff in H as [Hc Hs].
  rewrite N.eqb_sym, Hc, (IH Hs); reflexivity.
Qed.

(** Whatever the three-way test finds, the string is cut at ASCII commas
    and nowhere else. *)
Lemma split_field_comma_only (s : str) :
  split_field (JStr s) = JList (List.map JStr (split_on COMMA s)).
Proof.
  unfold split_field.
  destruct (char_in COMMA s) eqn:Hc; simpl.
  - reflexivity.
  - rewrite (split_on_absent _ _ Hc); simpl.
    now destruct (char_in SPACE s || char_in FULLWIDTH_COMMA s).
Qed.

(** With an ASCII comma present the code and the specification agree. *)
Lemma split_field_with_comma (s : str) :
  char_in COMMA s = true ->
  split_field (JStr s) = JList (List.map JStr (spec_split s)).
Proof.
  intros Hc; rewrite split_field_comma_only; unfold spec_split; now rewrite Hc.
Qed.

(** C1.  The author string "Alice Bob" has a space and no comma.  The
    specification's rule cuts it at the space into "Alice" and "Bob"; the
    code tests for the space and then splits on the comma, so the string
    stays whole, and so does a tag string with only a full-width comma.
    The record that [process_items] queues carries the whole strings. *)
Theorem split_field_keeps_space_separated_whole :
  split_field (JStr (pystr "Alice Bob")) = JList [JStr (pystr "Alice Bob")]
  /\ spec_split (pystr "Alice Bob") = [pystr "Alice"; pystr "Bob"]
  /\ split_field (JStr (pystr "a" ++ [FULLWIDTH_COMMA] ++ pystr "b"))
     = JList [JStr (pystr "a" ++ [FULLWIDTH_COMMA] ++ pystr "b")]
  /\ spec_split (pystr "a" ++ [FULLWIDTH_COMMA] ++ pystr "b") = [pystr "a"; pystr "b"]
  /\ List.map (fun mi => (mi_authors mi, mi_tags mi))
       (w_queue (snd (process_items Strptime.strptime
          [JDict [(pystr "authors", JStr (pystr "Alice Bob"));
                  (pystr "tags", JStr (pystr "a" ++ [FULLWIDTH_COMMA] ++ pystr "b"))]]
          empty_world)))
     = [(JList [JStr (pystr "Alice Bob")],
         JList [JStr (pystr "a" ++ [FULLWIDTH_COMMA] ++ pystr "b")])].
Proof. repeat split; vm_compute; reflexivity. Qed.

(* ===================================================================== *)
(** ** The normalisation loop *)
(* ===================================================================== *)

Lemma lstrip_padding (l t : str) :
  forallb is_space l = true -> lstrip (l ++ t) = lstrip t.
Proof.
  induction l as [|c l IH]; simpl; [reflexivity|].
  intros H; apply andb_true_iff in H as [Hc Hl]; rewrite Hc; auto.
Qed.

Lemma lstrip_no_padding (c : char) (t : str) :
  is_space c = false -> lstrip (c :: t) = c :: t.
Proof. intros H; simpl; now rewrite H. Qed.

(** Trimming a string made of whitespace, a trimmed string and whitespace
    gives the trimmed string. *)
Lemma strip_padded (l s r : str) :
  forallb is_space l = true ->
  forallb is_space r = true ->
  trimmed s = true ->
  strip (l ++ s ++ r) = s.
Proof.
  intros Hl Hr Hs; unfold strip, rstrip.
  rewrite (lstrip_padding l _ Hl).
  assert (Hrev : forallb is_space (rev r) = true).
  { rewrite forallb_forall in *; intros c Hc; apply Hr; now apply in_rev. }
  destruct s as [|c t].
  - simpl; rewrite <- (app_nil_r r), (lstrip_padding r [] Hr); simpl.
    reflexivity.
  - unfold trimmed in Hs; apply andb_true_iff in Hs as [Hhead Hlast].
    apply negb_true_iff in Hhead.
    change ((c :: t) ++ r) with (c :: (t ++ r)).
    rewrite (lstrip_no_padding c _ Hhead).
    change (c :: (t ++ r)) with ((c :: t) ++ r).
    rewrite rev_app_distr, (lstrip_padding _ _ Hrev).
    destruct (rev (c :: t)) as [|d u] eqn:Hu.
    + apply (f_equal (@List.length _)) in Hu; rewrite length_rev in Hu;
        discriminate Hu.
    + apply negb_true_iff in Hlast.
      rewrite (lstrip_no_padding d u Hlast), <- Hu; apply rev_involutive.
Qed.

Section Normalizer.

Variable strptime : str -> str -> res datetime.

Lemma process_items_app (pre post : list json) (w : world) :
  process_items strptime (pre ++ post) w =
  bind (process_items strptime pre) (fun _ => process_items strptime post) w.
Proof.
  revert w; induction pre as [|item pre IH]; intros w; simpl.
  - reflexivity.
  - unfold bind.
    destruct (match item with
              | JDict d => normalize_item strptime d
              | _ => log INFO (MInvalidItem item)
              end w) as [[[]|e] w']; [rewrite IH | ]; reflexivity.
Qed.

Lemma process_items_skip (item : json) (rest : list json) (w : world) :
  is_dict item = false ->
  process_items strptime (item :: rest) w =
  process_items strptime rest (extend w [(INFO, MInvalidItem item)] [] []).
Proof.
  intros H; destruct item; try discriminate H; simpl; run; reflexivity.
Qed.

Lemma try_formats_steady (s : str) (fmts : list str) :
  similar (try_formats strptime s fmts) (try_formats strptime s fmts).
Proof. induction fmts as [|fmt rest IH]; simpl; repeat similar_step. Qed.

Lemma parse_pubdate_steady (s : str) :
  similar (parse_pubdate strptime s) (parse_pubdate strptime s).
Proof.
  pose proof (try_formats_steady s PUBDATE_FORMATS).
  unfold parse_pubdate; repeat similar_step.
Qed.

Lemma normalize_item_steady (item : list (str * json)) :
  similar (normalize_item strptime item) (normalize_item strptime item).
Proof.
  unfold normalize_item; repeat similar_step.
  apply parse_pubdate_steady.
Qed.

Lemma process_items_steady (data : list json) :
  similar (process_items strptime data) (process_items strptime data).
Proof.
  induction data as [|item rest IH]; simpl; [auto with similar|].
  apply similar_bind; [|intros _; exact IH].
  destruct item; auto using normalize_item_steady with similar.
Qed.

(** The loop over a list and the loop over its mappings alone end alike. *)
Lemma process_items_filter (data : list json) :
  similar (process_items strptime data)
          (process_items strptime (filter is_dict data)).
Proof.
  induction data as [|item rest IH]; simpl; [auto with similar|].
  destruct item; simpl; try (apply similar_skip_log; exact IH).
  apply similar_bind; [apply normalize_item_steady | intros _; exact IH].
Qed.

(** C8.  An entry that is not a mapping, wherever it stands in the
    retrieved list: once the entries before it are done, the loop logs
    the entry, queues nothing, sends nothing, raises nothing, and goes on
    with the entries after it.  Over the whole list: the loop ends as it
    does on the mappings alone, with the same outcome and the same records
    queued. *)
Theorem non_mapping_entry_is_skipped
        (pre post : list json) (item : json) (w w1 : world) :
  is_dict item = false ->
  process_items strptime pre w = (Ok tt, w1) ->
  process_items strptime (pre ++ item :: post) w =
  process_items strptime post (extend w1 [(INFO, MInvalidItem item)] [] [])
  /\ fst (process_items strptime (pre ++ item :: post) w) =
     fst (process_items strptime (filter is_dict (pre ++ post)) w)
  /\ w_queue (snd (process_items strptime (pre ++ item :: post) w)) =
     w_queue (snd (process_items strptime (filter is_dict (pre ++ post)) w)).
Proof.
  intros Hitem Hpre; split.
  - rewrite process_items_app, (bind_ok _ _ _ _ _ Hpre).
    now apply process_items_skip.
  - assert (Hfilter : filter is_dict (pre ++ item :: post)
                      = filter is_dict (pre ++ post)).
    { rewrite !filter_app; simpl; now rewrite Hitem. }
    rewrite <- Hfilter.
    destruct (process_items_filter (pre ++ item :: post) w w) as [Hr [_ Hq]];
      [now split | now split].
Qed.

(** A pubdate that is not a string stops the loop: [strip] is looked up on
    it outside every [try]. *)
Lemma non_string_pubdate_raises (item : list (str * json)) (rest : list json)
      (w : world) :
  is_str (dict_get item (pystr "pubdate") (JStr [])) = false ->
  process_items strptime (JDict item :: rest) w =
  (Raise AttributeError, extend w [(INFO, MProcessItem (JDict item))] [] []).
Proof.
  intros H; simpl; unfold normalize_item; run.
  destruct (dict_get item (pystr "pubdate") (JStr [])); try discriminate H;
    reflexivity.
Qed.

Lemma try_formats_run (s : str) (fmts : list str) (w : world) :
  forallb (fun fmt => only_ValueError (strptime s fmt)) fmts = true ->
  try_formats strptime s fmts w =
  match first_success strptime s fmts with
  | Some (d, fmt) => (Ok (Some d), extend w [(INFO, MPubdateParsed d fmt)] [] [])
  | None => (Ok None, extend w [(WARN, MPubdateUnparsed s)] [] [])
  end.
Proof.
  revert w; induction fmts as [|fmt rest IH]; intros w H; simpl.
  - run; reflexivity.
  - simpl in H; apply andb_true_iff in H as [Hfmt Hrest].
    run. destruct (strptime s fmt) as [d|e]; simpl in Hfmt.
    + run; reflexivity.
    + rewrite Hfmt. rewrite <- (IH w Hrest). reflexivity.
Qed.

Lemma parse_pubdate_run (s : str) (w : world) :
  forallb (fun fmt => only_ValueError (strptime s fmt)) PUBDATE_FORMATS = true ->
  parse_pubdate strptime s w =
  (Ok (spec_pubdate strptime s), extend w (spec_pubdate_log strptime s) [] []).
Proof.
  intros H; unfold parse_pubdate, spec_pubdate, spec_pubdate_log.
  destruct (str_truthy s).
  - unfold try_except; rewrite (try_formats_run _ _ _ H).
    now destruct (first_success strptime s PUBDATE_FORMATS) as [[d fmt]|].
  - run; reflexivity.
Qed.

(** C3.  A record whose pubdate is a string (or is missing, which reads as
    the empty string), written as whitespace, a trimmed string [s] and
    whitespace again: the loop body raises nothing and queues one record.
    When [s] is empty the pubdate is absent and only a note is logged.
    Otherwise [s] is tried against YYYY-MM-DD, YYYY(nian)MM(yue)DD(ri),
    YYYY(nian)MM(yue), YYYY/MM/DD, YYYY.MM.DD in this order: the pubdate is
    the date of the first format that parses [s], and when none parses
    [s] the pubdate is absent and a warning is logged.  No error is
    logged. *)
Theorem pubdate_is_first_format_that_parses
        (item : list (str * json)) (l s r : str) (w : world) :
  dict_get item (pystr "pubdate") (JStr []) = JStr (l ++ s ++ r) ->
  forallb is_space l = true ->
  forallb is_space r = true ->
  trimmed s = true ->
  forallb (fun fmt => only_ValueError (strptime s fmt)) SPEC_FORMATS = true ->
  exists mi note,
    normalize_item strptime item w =
    (Ok tt,
     extend w
       ([(INFO, MProcessItem (JDict item)); (INFO, MRawPubdate s)]
        ++ note
        ++ [(INFO, MQueued (dict_get item (pystr "title") (JStr [])))])
       [] [mi])
    /\ (s = [] -> mi_pubdate mi = None /\ note = [(INFO, MNoPubdate)])
    /\ (forall d fmt,
          s <> [] ->
          first_success strptime s SPEC_FORMATS = Some (d, fmt) ->
          mi_pubdate mi = Some d /\ note = [(INFO, MPubdateParsed d fmt)])
    /\ (s <> [] ->
        first_success strptime s SPEC_FORMATS = None ->
        mi_pubdate mi = None /\ note = [(WARN, MPubdateUnparsed s)]).
Proof.
  intros Hget Hl Hr Hs Hval.
  assert (Hformats : SPEC_FORMATS = PUBDATE_FORMATS) by reflexivity.
  rewrite Hformats in *.
  exists (record_of item (spec_pubdate strptime s)), (spec_pubdate_log strptime s).
  split; [|split; [|split]].
  - unfold normalize_item; run. rewrite Hget; simpl py_strip.
    rewrite (strip_padded l s r Hl Hr Hs); run.
    rewrite (parse_pubdate_run _ _ Hval); run.
    reflexivity.
  - intros ->; split; reflexivity.
  - simpl; unfold spec_pubdate, spec_pubdate_log; intros d fmt Hne Hfs.
    destruct s; [congruence|]; simpl; rewrite Hfs; split; reflexivity.
  - simpl; unfold spec_pubdate, spec_pubdate_log; intros Hne Hfs.
    destruct s; [congruence|]; simpl; rewrite Hfs; split; reflexivity.
Qed.

End Normalizer.

(* ===================================================================== *)
(** ** The session client *)
(* ===================================================================== *)

Section SessionClient.

Variable urlopen : Request -> http_reply.
Variable prefs : Prefs.

Lemma create_session_URLError (e : exn) (w : world) :
  request_ok (session_request prefs) = true ->
  urlopen (session_request prefs) = Raises e ->
  is_URLError e = true ->
  create_session urlopen prefs w =
  (Ok JNull,
   extend w [(INFO, MSessionStart); (ERROR, MSessionError e)]
          [session_request prefs] []).
Proof.
  intros Hok Hreply He; unfold create_session; run.
  rewrite Hreply, He; run; reflexivity.
Qed.

Lemma create_session_garbled (raw : str) (w : world) :
  request_ok (session_request prefs) = true ->
  urlopen (session_request prefs) = Responds (Garbled raw) ->
  create_session urlopen prefs w =
  (Raise JSONDecodeError,
   extend w [(INFO, MSessionStart)] [session_request prefs] []).
Proof.
  intros Hok Hreply; unfold create_session; run.
  rewrite Hreply; cbn [json_loads is_URLError]; run; reflexivity.
Qed.

Lemma create_session_ok (sd : list (str * json)) (sid : json) (w : world) :
  request_ok (session_request prefs) = true ->
  urlopen (session_request prefs) = Responds (Text_of (JDict sd)) ->
  assoc (pystr "session_id") sd = Some sid ->
  create_session urlopen prefs w =
  (Ok sid,
   extend w [(INFO, MSessionStart); (INFO, MSessionCreated sid)]
          [session_request prefs] []).
Proof.
  intros Hok Hreply Hsid; unfold create_session; run.
  rewrite Hreply; cbn [json_loads py_getitem]; run.
  rewrite Hsid; run; reflexivity.
Qed.

(** A URL that [Request] does not accept: the constructor, which is called
    before the [try], raises ValueError, and no request is made. *)
Lemma create_session_rejected (w : world) :
  request_ok (session_request prefs) = false ->
  create_session urlopen prefs w =
  (Raise ValueError, extend w [(INFO, MSessionStart)] [] []).
Proof. intros Hbad; unfold create_session; run; reflexivity. Qed.

(** Whatever the service answers, [create_session] makes one call when the
    request can be built and none otherwise, queues nothing, and its outcome
    does not depend on the world it starts in. *)
Lemma create_session_frame (w : world) :
  exists logs,
    create_session urlopen prefs w =
    (fst (create_session urlopen prefs empty_world),
     extend w logs
            (if request_ok (session_request prefs)
             then [session_request prefs] else [])
            []).
Proof.
  destruct (request_ok (session_request prefs)) eqn:Hok;
    [|rewrite !create_session_rejected by assumption; eexists; reflexivity].
  unfold create_session; run.
  destruct (urlopen (session_request prefs)) as [e|[j|raw]].
  - destruct (is_URLError e); run; eexists; reflexivity.
  - cbn [json_loads]; run.
    destruct (py_getitem j (pystr "session_id")) as [sid|e'] eqn:Hget; run.
    + eexists; reflexivity.
    + assert (He : is_URLError e' = false).
      { destruct j; simpl in Hget; try (inversion Hget; reflexivity).
        destruct (assoc (pystr "session_id") d); inversion Hget; reflexivity. }
      rewrite He; eexists; reflexivity.
  - cbn [json_loads is_URLError]; run; eexists; reflexivity.
Qed.

Lemma session_url_is_not_retrieve_url :
  req_url (session_request prefs) <> api_base_url prefs ++ pystr "/retrieve".
Proof.
  simpl; intros H; apply app_inv_head in H; vm_compute in H; discriminate H.
Qed.

(** C6, as the code has it.  The session request being built (its URL is
    one [Request] accepts), a connection error, and a non-2xx status (both
    reach the plugin as a URLError), make [create_session] log the error and
    return None after that one call: there is no retry.  A body that is not
    well-formed JSON is not turned into the failure result: the decoding
    error leaves [create_session], again after one call. *)
Theorem create_session_failure_is_for_URLError (w : world) :
  request_ok (session_request prefs) = true ->
  (forall e,
      urlopen (session_request prefs) = Raises e ->
      is_URLError e = true ->
      create_session urlopen prefs w =
      (Ok JNull,
       extend w [(INFO, MSessionStart); (ERROR, MSessionError e)]
              [session_request prefs] []))
  /\ (forall raw,
         urlopen (session_request prefs) = Responds (Garbled raw) ->
         create_session urlopen prefs w =
         (Raise JSONDecodeError,
          extend w [(INFO, MSessionStart)] [session_request prefs] [])).
Proof.
  intros Hok; split; intros;
    [now apply create_session_URLError
    | now apply create_session_garbled with (raw := raw)].
Qed.

End SessionClient.

(** C6, as the claim states it, fails: a body that is not JSON is one of
    the listed transport failures, and [create_session] raises instead of
    returning the failure result. *)
Lemma create_session_malformed_body_raises :
  let reply := Responds (Garbled (pystr "<html>")) in
  transport_failure reply
  /\ fst (create_session (service sample_prefs reply session_s1)
                         sample_prefs empty_world)
     = Raise JSONDecodeError
  /\ fst (create_session (service sample_prefs reply session_s1)
                         sample_prefs empty_world)
     <> Ok JNull.
Proof.
  cbv zeta; split; [constructor | split; [vm_compute; reflexivity|]].
  vm_compute; discriminate.
Qed.

(* ===================================================================== *)
(** ** The retrieval client *)
(* ===================================================================== *)

Section RetrievalClient.

Variable urlopen : Request -> http_reply.
Variable prefs : Prefs.



Lemma retrieve_data_empty (sid : json) (q : str) (fields : list str)
      (url : str) (rd : list (str * json)) (w : world) :
  request_ok (retrieve_request prefs sid q fields url (effective_actions prefs))
  = true ->
  urlopen (retrieve_request prefs sid q fields url (effective_actions prefs))
  = Responds (Text_of (JDict rd)) ->
  dict_get rd (pystr "result") (JList []) = JList [] ->
  retrieve_data urlopen prefs sid q fields url w =
  (Ok (JList []),
   extend w ([(INFO, MRetrieveStart url)] ++ actions_log prefs
             ++ [(INFO, MRawResponse (JDict rd)); (INFO, MRetrieved 0)])
          [retrieve_request prefs sid q fields url (effective_actions prefs)]
          []).
Proof.
  unfold retrieve_data, actions_log, effective_actions; intros Hok Hreply Hres; run.
  destruct (actions prefs) as [a|raw]; cbn [json_loads is_JSONDecodeError]; run;
    rewrite Hreply; cbn [json_loads py_get]; run; rewrite Hres;
    cbn [py_len length]; run; reflexivity.
Qed.

(** With an [actions] option that is not JSON, [retrieve_data] logs the
    warning and then does what it does when the option is the empty JSON
    array. *)
Lemma retrieve_data_fallback
      (raw : str) (sid : json) (q : str) (fields : list str) (url : str)
      (w : world) :
  actions prefs = Garbled raw ->
  request_ok (retrieve_request prefs sid q fields url (JList [])) = true ->
  exists r logs,
    retrieve_data urlopen prefs sid q fields url w =
    (r, extend w ([(INFO, MRetrieveStart url); (WARN, MActionsFallback)] ++ logs)
               [retrieve_request prefs sid q fields url (JList [])] [])
    /\ retrieve_data urlopen (with_actions prefs (Text_of (JList [])))
                     sid q fields url w =
       (r, extend w ([(INFO, MRetrieveStart url)] ++ logs)
                  [retrieve_request prefs sid q fields url (JList [])] []).
Proof.
  intros Hact Hok; unfold retrieve_data; rewrite Hact.
  cbn [actions with_actions json_loads is_JSONDecodeError].
  change (retrieve_request (with_actions prefs (Text_of (JList []))))
    with (retrieve_request prefs).
  run.
  destruct (urlopen (retrieve_request prefs sid q fields url (JList [])))
    as [e|[j|raw']].
  - destruct (is_URLError e); run; do 2 eexists; split; reflexivity.
  - cbn [json_loads]; run.
    destruct j; cbn [py_get is_URLError]; run;
      try (do 2 eexists; split; reflexivity).
    destruct (dict_get d (pystr "result") (JList []));
      cbn [py_len is_URLError]; run; do 2 eexists; split; reflexivity.
  - cbn [json_loads is_URLError]; run; do 2 eexists; split; reflexivity.
Qed.

Lemma retrieve_data_fallback_similar
      (raw : str) (sid : json) (q : str) (fields : list str) (url : str) :
  actions prefs = Garbled raw ->
  similar (retrieve_data urlopen prefs sid q fields url)
          (retrieve_data urlopen (with_actions prefs (Text_of (JList [])))
                         sid q fields url).
Proof.
  intros Hact; unfold retrieve_data; rewrite Hact.
  cbn [actions with_actions].
  change (retrieve_request (with_actions prefs (Text_of (JList []))))
    with (retrieve_request prefs).
  apply similar_bind; [auto with similar|intros _].
  apply similar_bind.
  - intros w1 w2 Hw; cbv [try_except lift json_loads is_JSONDecodeError bind ret log].
    simpl; split; [reflexivity | exact Hw].
  - intros acts; repeat similar_step.
Qed.

Lemma create_session_steady :
  similar (create_session urlopen prefs) (create_session urlopen prefs).
Proof. unfold create_session; repeat similar_step. Qed.

End RetrievalClient.

(* ===================================================================== *)
(** ** URL formatting *)
(* ===================================================================== *)

(** The three values are encoded one by one, in the order isbn, title,
    first author; a field that is unset or empty contributes the empty
    string. *)
Lemma build_format_params_encodes (isbn : str) (title : option str)
      (authors : option (list str)) :
  build_format_params isbn title authors =
  (qi <- encoded_or_empty (Some isbn) ;;
   qt <- encoded_or_empty title ;;
   qa <- encoded_or_empty (first_author authors) ;;
   Ok [(pystr "isbn", qi); (pystr "title", qt); (pystr "author", qa)])%res.
Proof.
  unfold build_format_params, encoded_or_empty, first_author, res_bind.
  destruct (str_truthy isbn); [destruct (quote isbn) as [qi|]; [|reflexivity]|];
    (destruct title as [t|];
     [destruct (str_truthy t); [destruct (quote t) as [qt|]; [|reflexivity]|]|]);
    (destruct authors as [[|au l]|]; try reflexivity;
     destruct (str_truthy au); [destruct (quote au) as [qa|]|]; reflexivity).
Qed.

Lemma format_params_keys (isbn : str) (title : option str)
      (authors : option (list str)) (fp : list (str * str)) :
  build_format_params isbn title authors = Ok fp ->
  forall name,
    if recognized name then exists v, assoc name fp = Some v
    else assoc name fp = None.
Proof.
  rewrite build_format_params_encodes; unfold res_bind.
  destruct (encoded_or_empty (Some isbn)) as [qi|]; [|discriminate].
  destruct (encoded_or_empty title) as [qt|]; [|discriminate].
  destruct (encoded_or_empty (first_author authors)) as [qa|]; [|discriminate].
  intros H name; inversion H; subst fp; clear H.
  unfold recognized; cbn [assoc].
  destruct (str_eqb name (pystr "isbn")); [eexists; reflexivity|].
  destruct (str_eqb name (pystr "title")); [eexists; reflexivity|].
  destruct (str_eqb name (pystr "author")); [eexists; reflexivity|].
  reflexivity.
Qed.

(** [format] stops at the first field it cannot resolve; when that field is
    a name outside the recognized three, the exception is a KeyError. *)
Lemma str_format_unknown_name (pre post : template) (name : str)
      (fp : list (str * str)) :
  (forall n, if recognized n then exists v, assoc n fp = Some v
             else assoc n fp = None) ->
  forallb resolvable pre = true ->
  recognized name = false ->
  str_format (pre ++ Named name :: post) fp = Raise (KeyError name).
Proof.
  intros Hkeys Hpre Hname.
  induction pre as [|seg pre IH]; simpl.
  - specialize (Hkeys name); rewrite Hname in Hkeys; now rewrite Hkeys.
  - simpl in Hpre; apply andb_true_iff in Hpre as [Hseg Hpre].
    rewrite (IH Hpre).
    destruct seg as [text|n|i]; simpl in Hseg; try discriminate; [reflexivity|].
    specialize (Hkeys n); rewrite Hseg in Hkeys; destruct Hkeys as [v ->].
    reflexivity.
Qed.

Lemma str_format_fills (tmpl : template) (qi qt qa : str) :
  forallb resolvable tmpl = true ->
  str_format tmpl [(pystr "isbn", qi); (pystr "title", qt); (pystr "author", qa)]
  = Ok (flat_map (fill qi qt qa) tmpl).
Proof.
  induction tmpl as [|seg tmpl IH]; simpl; intros H; [reflexivity|].
  apply andb_true_iff in H as [Hseg Htmpl]; rewrite (IH Htmpl).
  destruct seg as [text|name|i]; simpl in *; try discriminate; [reflexivity|].
  unfold recognized in Hseg.
  destruct (str_eqb name (pystr "isbn")); [reflexivity|].
  destruct (str_eqb name (pystr "title")); [reflexivity|].
  destruct (str_eqb name (pystr "author")); [reflexivity|discriminate].
Qed.

(* ===================================================================== *)
(** ** The orchestrator *)
(* ===================================================================== *)

Section Orchestrator.

Variable strptime : str -> str -> res datetime.
Variable urlopen : Request -> http_reply.
Variable prefs : Prefs.

(** Without a session [identify] stops right after the session call, or
    before it when the session request cannot be built. *)
Lemma identify_without_session
      (title : option str) (authors : option (list str))
      (identifiers : list (str * str)) (w : world) :
  is_session (fst (create_session urlopen prefs empty_world)) = false ->
  exists logs,
    snd (identify strptime urlopen prefs title authors identifiers w) =
    extend w logs
           (if request_ok (session_request prefs)
            then [session_request prefs] else [])
           [].
Proof.
  intros Hfail; unfold identify; run.
  destruct (create_session_frame urlopen prefs
              (extend w [(INFO, MIdentifyStart)] [] [])) as [logs Hcs].
  rewrite Hcs.
  destruct (fst (create_session urlopen prefs empty_world)) as [sid|e];
    simpl in Hfail.
  - rewrite Hfail; run; eexists; reflexivity.
  - run; eexists; reflexivity.
Qed.

(** C5.  When session creation fails, that is when [create_session]
    raises or returns no truthy session id (a non-2xx reply makes it
    return None), [identify] queues no record, and the only request it
    sends is the session request, which is not a retrieve request; when the
    session request itself cannot be built, it sends none at all. *)
Theorem no_session_no_retrieval
        (title : option str) (authors : option (list str))
        (identifiers : list (str * str)) (w : world) :
  is_session (fst (create_session urlopen prefs empty_world)) = false ->
  let w' := snd (identify strptime urlopen prefs title authors identifiers w) in
  w_queue w' = w_queue w
  /\ w_sent w' = w_sent w ++ (if request_ok (session_request prefs)
                              then [session_request prefs] else [])
  /\ req_url (session_request prefs) <> api_base_url prefs ++ pystr "/retrieve".
Proof.
  intros Hfail w'.
  destruct (identify_without_session title authors identifiers w Hfail)
    as [logs Hrun].
  subst w'; rewrite Hrun; unfold extend; simpl.
  rewrite app_nil_r; repeat split.
  apply session_url_is_not_retrieve_url.
Qed.


(** C4.  The session is obtained, the URL is formatted, a query is there,
    and the service answers the retrieve request with an empty result
    list (both requests being ones [Request] accepts, as they must be for
    the service to be asked): [identify] logs the retrieval failure as its
    last entry and returns.  Nothing is queued, and no entry of the
    normalisation loop is in the log. *)
Theorem empty_result_is_retrieval_failure
        (title : option str) (authors : option (list str))
        (identifiers : list (str * str)) (w : world)
        (sd rd : list (str * json)) (sid : json)
        (fp : list (str * str)) (url q : str) :
  let isbn := dict_get identifiers (pystr "isbn") [] in
  request_ok (session_request prefs) = true ->
  urlopen (session_request prefs) = Responds (Text_of (JDict sd)) ->
  assoc (pystr "session_id") sd = Some sid ->
  truthy sid = true ->
  build_format_params isbn title authors = Ok fp ->
  str_format (request_url prefs) fp = Ok url ->
  (if str_truthy isbn then Some isbn else title) = Some q ->
  str_truthy q = true ->
  request_ok (retrieve_request prefs sid q FIELDS url (effective_actions prefs))
  = true ->
  urlopen (retrieve_request prefs sid q FIELDS url (effective_actions prefs))
  = Responds (Text_of (JDict rd)) ->
  dict_get rd (pystr "result") (JList []) = JList [] ->
  identify strptime urlopen prefs title authors identifiers w =
  (Ok tt,
   extend w
     ([(INFO, MIdentifyStart); (INFO, MSessionStart);
       (INFO, MSessionCreated sid); (INFO, MQuery isbn title authors);
       (INFO, MFormattedURL url); (INFO, MUsingQuery q);
       (INFO, MRetrieveStart url)]
      ++ actions_log prefs
      ++ [(INFO, MRawResponse (JDict rd)); (INFO, MRetrieved 0);
          (ERROR, MRetrieveFailed)])
     [session_request prefs;
      retrieve_request prefs sid q FIELDS url (effective_actions prefs)]
     []).
Proof.
  intros isbn Hok Hreply Hsid Htruthy Hfp Hurl Hquery Hq Hrok Hretr Hres;
    subst isbn.
  unfold identify; run.
  rewrite (create_session_ok urlopen prefs sd sid _ Hok Hreply Hsid), Htruthy; run.
  rewrite Hfp; run. rewrite Hurl; run.
  rewrite Hquery; cbn [opt_truthy]; rewrite Hq; run.
  rewrite (retrieve_data_empty urlopen prefs sid q FIELDS url rd _ Hrok Hretr Hres).
  cbn [truthy]; run. rewrite <- !app_assoc; reflexivity.
Qed.

(** C7, as the code has it.  Each of isbn, title and first author is
    percent-encoded on its own, an unset or empty one giving the empty
    string, and the encoded values are what the template's placeholders
    receive.  When the first placeholder that cannot be filled is a name
    outside isbn, title and author, [identify] (having obtained its
    session) logs the error, queues nothing, sends nothing after the
    session request and returns. *)
Theorem url_is_formatted_from_encoded_fields
        (title : option str) (authors : option (list str))
        (identifiers : list (str * str)) (w : world) :
  let isbn := dict_get identifiers (pystr "isbn") [] in
  build_format_params isbn title authors =
  (qi <- encoded_or_empty (Some isbn) ;;
   qt <- encoded_or_empty title ;;
   qa <- encoded_or_empty (first_author authors) ;;
   Ok [(pystr "isbn", qi); (pystr "title", qt); (pystr "author", qa)])%res
  /\ (forall qi qt qa,
         forallb resolvable (request_url prefs) = true ->
         str_format (request_url prefs)
           [(pystr "isbn", qi); (pystr "title", qt); (pystr "author", qa)]
         = Ok (flat_map (fill qi qt qa) (request_url prefs)))
  /\ (forall sd sid fp pre name post,
         request_ok (session_request prefs) = true ->
         urlopen (session_request prefs) = Responds (Text_of (JDict sd)) ->
         assoc (pystr "session_id") sd = Some sid ->
         truthy sid = true ->
         build_format_params isbn title authors = Ok fp ->
         request_url prefs = pre ++ Named name :: post ->
         forallb resolvable pre = true ->
         recognized name = false ->
         identify strptime urlopen prefs title authors identifiers w =
         (Ok tt,
          extend w
            [(INFO, MIdentifyStart); (INFO, MSessionStart);
             (INFO, MSessionCreated sid); (INFO, MQuery isbn title authors);
             (ERROR, MFormatKeyError (KeyError name))]
            [session_request prefs] [])).
Proof.
  intros isbn; subst isbn; split; [apply build_format_params_encodes|].
  split; [intros; now apply str_format_fills|].
  intros sd sid fp pre name post Hok Hreply Hsid Htruthy Hfp Htmpl Hpre Hname.
  unfold identify; run.
  rewrite (create_session_ok urlopen prefs sd sid _ Hok Hreply Hsid), Htruthy; run.
  rewrite Hfp; run.
  rewrite Htmpl,
    (str_format_unknown_name pre post name fp
       (format_params_keys _ _ _ _ Hfp) Hpre Hname).
  run; reflexivity.
Qed.

Lemma identify_fallback_similar
      (raw : str) (title : option str) (authors : option (list str))
      (identifiers : list (str * str)) :
  actions prefs = Garbled raw ->
  similar (identify strptime urlopen prefs title authors identifiers)
          (identify strptime urlopen (with_actions prefs (Text_of (JList [])))
                    title authors identifiers).
Proof.
  intros Hact; unfold identify.
  change (create_session urlopen (with_actions prefs (Text_of (JList []))))
    with (create_session urlopen prefs).
  cbn [request_url with_actions].
  pose proof (create_session_steady urlopen prefs).
  pose proof (process_items_steady strptime).
  pose proof (fun sid q url =>
                retrieve_data_fallback_similar urlopen prefs raw sid q FIELDS url Hact).
  repeat similar_step.
Qed.

(** C9.  When the [actions] option is not JSON, [retrieve_data] logs the
    warning, builds the request with an empty action list and, [Request]
    accepting its URL, sends it; from there on it does what it does when
    the option is the empty JSON array: same outcome, same request, same
    further log.  So [identify] ends as it does with the empty array
    configured: same outcome, same requests sent, same records queued. *)
Theorem unparseable_actions_become_empty_list
        (raw : str) (title : option str) (authors : option (list str))
        (identifiers : list (str * str)) (w : world) :
  actions prefs = Garbled raw ->
  let prefs' := with_actions prefs (Text_of (JList [])) in
  (forall sid q fields url w0,
      request_ok (retrieve_request prefs sid q fields url (JList [])) = true ->
      exists r logs,
        retrieve_data urlopen prefs sid q fields url w0 =
        (r, extend w0 ([(INFO, MRetrieveStart url); (WARN, MActionsFallback)] ++ logs)
                   [retrieve_request prefs sid q fields url (JList [])] [])
        /\ retrieve_data urlopen prefs' sid q fields url w0 =
           (r, extend w0 ([(INFO, MRetrieveStart url)] ++ logs)
                      [retrieve_request prefs sid q fields url (JList [])] []))
  /\ fst (identify strptime urlopen prefs title authors identifiers w) =
     fst (identify strptime urlopen prefs' title authors identifiers w)
  /\ w_sent (snd (identify strptime urlopen prefs title authors identifiers w)) =
     w_sent (snd (identify strptime urlopen prefs' title authors identifiers w))
  /\ w_queue (snd (identify strptime urlopen prefs title authors identifiers w)) =
     w_queue (snd (identify strptime urlopen prefs' title authors identifiers w)).
Proof.
  intros Hact prefs'; split.
  - intros sid q fields url w0 Hok.
    now apply retrieve_data_fallback with (raw := raw).
  - destruct (identify_fallback_similar raw title authors identifiers Hact w w)
      as [Hr [Hs Hq]]; [now split | now repeat split].
Qed.

End Orchestrator.

(* ===================================================================== *)
(** ** The theorems on concrete runs *)
(* ===================================================================== *)

Lemma first_success_split (strptime : str -> str -> res datetime) (s : str)
      (pre post : list str) (fmt : str) (d : datetime) :
  (forall f, In f pre -> exists e, strptime s f = Raise e) ->
  strptime s fmt = Ok d ->
  first_success strptime s (pre ++ fmt :: post) = Some (d, fmt).
Proof.
  intros Hpre Hfmt; induction pre as [|f pre IH]; simpl.
  - now rewrite Hfmt.
  - destruct (Hpre f (or_introl eq_refl)) as [e ->].
    apply IH; intros f' Hin; apply Hpre; now right.
Qed.

Lemma first_success_none (strptime : str -> str -> res datetime) (s : str)
      (fmts : list str) :
  (forall f, In f fmts -> exists e, strptime s f = Raise e) ->
  first_success strptime s fmts = None.
Proof.
  intros H; induction fmts as [|f fmts IH]; simpl; [reflexivity|].
  destruct (H f (or_introl eq_refl)) as [e ->].
  apply IH; intros f' Hin; apply H; now right.
Qed.

(** The reference [strptime] raises nothing but ValueError. *)
Lemma reference_strptime_only_ValueError (s fmt : str) :
  only_ValueError (Strptime.strptime s fmt) = true.
Proof.
  unfold Strptime.strptime.
  destruct (Strptime.parse_format fmt) as [ds|]; [|reflexivity].
  destruct (Strptime.match_seq ds s) as [[caps rest]|]; [|reflexivity].
  destruct (str_truthy rest); [reflexivity|].
  match goal with |- context [if ?c then _ else _] => destruct c end; reflexivity.
Qed.

(** The five formats, each on a string written in it. *)
Example reference_strptime_formats :
  List.map (fun s => spec_pubdate Strptime.strptime s)
    [ pystr "2021-03-04";
      pystr "2021" ++ [NIAN] ++ pystr "03" ++ [YUE] ++ pystr "04" ++ [RI];
      pystr "2021" ++ [NIAN] ++ pystr "03" ++ [YUE];
      pystr "2021/03/04";
      pystr "2021.03.04";
      pystr "March 2021" ]
  = [ Some (mkdate 2021 3 4); Some (mkdate 2021 3 4); Some (mkdate 2021 3 1);
      Some (mkdate 2021 3 4); Some (mkdate 2021 3 4); None ].
Proof. vm_compute; reflexivity. Qed.

(** The formats are tried in the order of the source: of two formats that
    both parse, the earlier one gives the date. *)
Example earlier_format_wins :
  let slash_or_dot s fmt :=
    if str_eqb fmt (pystr "%Y/%m/%d") then Ok (mkdate 2001 1 1)
    else if str_eqb fmt (pystr "%Y.%m.%d") then Ok (mkdate 2002 2 2)
    else Raise ValueError in
  let item := [(pystr "pubdate", JStr (pystr "x"))] in
  normalize_item slash_or_dot item empty_world =
  (Ok tt,
   extend empty_world
     [(INFO, MProcessItem (JDict item)); (INFO, MRawPubdate (pystr "x"));
      (INFO, MPubdateParsed (mkdate 2001 1 1) (pystr "%Y/%m/%d"));
      (INFO, MQueued (JStr []))]
     [] [record_of item (Some (mkdate 2001 1 1))]).
Proof. vm_compute; reflexivity. Qed.

Lemma pubdate_is_first_format_that_parses_witness :
  let l := pystr " " in
  let s := pystr "2020" ++ [NIAN] ++ pystr "10" ++ [YUE] in
  let r := pystr " " in
  let year_month := pystr "%Y" ++ [NIAN] ++ pystr "%m" ++ [YUE] in
  dict_get sample_record (pystr "pubdate") (JStr []) = JStr (l ++ s ++ r)
  /\ forallb is_space l = true
  /\ forallb is_space r = true
  /\ trimmed s = true
  /\ forallb (fun fmt => only_ValueError (Strptime.strptime s fmt))
             SPEC_FORMATS = true
  /\ first_success Strptime.strptime s SPEC_FORMATS
     = Some (mkdate 2020 10 1, year_month)
  /\ exists mi,
      normalize_item Strptime.strptime sample_record empty_world =
      (Ok tt,
       extend empty_world
         [(INFO, MProcessItem (JDict sample_record)); (INFO, MRawPubdate s);
          (INFO, MPubdateParsed (mkdate 2020 10 1) year_month);
          (INFO, MQueued (JStr (pystr "The C Programming Language")))]
         [] [mi])
      /\ mi_pubdate mi = Some (mkdate 2020 10 1).
Proof.
  cbv zeta.
  assert (Hfirst : first_success Strptime.strptime
                     (pystr "2020" ++ [NIAN] ++ pystr "10" ++ [YUE]) SPEC_FORMATS
                   = Some (mkdate 2020 10 1,
                           pystr "%Y" ++ [NIAN] ++ pystr "%m" ++ [YUE]))
    by (vm_compute; reflexivity).
  do 5 (split; [vm_compute; reflexivity|]).
  split; [exact Hfirst|].
  destruct (pubdate_is_first_format_that_parses Strptime.strptime
              sample_record (pystr " ")
              (pystr "2020" ++ [NIAN] ++ pystr "10" ++ [YUE]) (pystr " ")
              empty_world)
    as (mi & note & Hrun & _ & Hparsed & _);
    try (vm_compute; reflexivity).
  destruct (Hparsed _ _ ltac:(discriminate) Hfirst) as [Hdate Hnote].
  exists mi; split; [|exact Hdate].
  rewrite Hrun, Hnote; reflexivity.
Defined.

Lemma non_mapping_entry_is_skipped_witness :
  let w1 := snd (process_items Strptime.strptime [JDict sample_record] empty_world) in
  let data := [JDict sample_record] ++ JInt 4 :: [JDict sample_record] in
  is_dict (JInt 4) = false
  /\ process_items Strptime.strptime [JDict sample_record] empty_world = (Ok tt, w1)
  /\ process_items Strptime.strptime data empty_world
     = process_items Strptime.strptime [JDict sample_record]
         (extend w1 [(INFO, MInvalidItem (JInt 4))] [] [])
  /\ fst (process_items Strptime.strptime data empty_world) =
     fst (process_items Strptime.strptime
            (filter is_dict ([JDict sample_record] ++ [JDict sample_record]))
            empty_world)
  /\ w_queue (snd (process_items Strptime.strptime data empty_world)) =
     w_queue (snd (process_items Strptime.strptime
                     (filter is_dict ([JDict sample_record] ++ [JDict sample_record]))
                     empty_world)).
Proof.
  cbv zeta; split; [reflexivity | split; [vm_compute; reflexivity|]].
  apply (non_mapping_entry_is_skipped Strptime.strptime
           [JDict sample_record] [JDict sample_record] (JInt 4) empty_world);
    [reflexivity | vm_compute; reflexivity].
Defined.

(** C2.  The service returns two records, the first with a null pubdate.
    [strip] is called on the pubdate outside every [try], so the
    AttributeError leaves [identify]: the first record is not queued and the
    second, which is well formed, is never reached.  Without the first
    record the second is queued. *)
Theorem null_pubdate_aborts_the_batch :
  let bad := JDict [(pystr "title", JStr (pystr "A")); (pystr "pubdate", JNull)] in
  let good := JDict [(pystr "title", JStr (pystr "B"));
                     (pystr "pubdate", JStr (pystr "2020-01-02"))] in
  let run records :=
    identify Strptime.strptime
             (service sample_prefs session_s1 (result_of (JList records)))
             sample_prefs sample_title sample_authors sample_identifiers
             empty_world in
  fst (run [bad; good]) = Raise AttributeError
  /\ w_queue (snd (run [bad; good])) = []
  /\ fst (run [good]) = Ok tt
  /\ List.map mi_pubdate (w_queue (snd (run [good]))) = [Some (mkdate 2020 1 2)].
Proof. cbv zeta; repeat split; vm_compute; reflexivity. Qed.

Lemma create_session_failure_is_for_URLError_witness :
  let urlopen := service sample_prefs (Raises (HTTPError 503)) session_s1 in
  request_ok (session_request sample_prefs) = true
  /\ urlopen (session_request sample_prefs) = Raises (HTTPError 503)
  /\ is_URLError (HTTPError 503) = true
  /\ create_session urlopen sample_prefs empty_world =
     (Ok JNull,
      extend empty_world
        [(INFO, MSessionStart); (ERROR, MSessionError (HTTPError 503))]
        [session_request sample_prefs] []).
Proof.
  cbv zeta; split; [vm_compute; reflexivity|].
  split; [vm_compute; reflexivity | split; [reflexivity|]].
  apply (proj1 (create_session_failure_is_for_URLError
                  (service sample_prefs (Raises (HTTPError 503)) session_s1)
                  sample_prefs empty_world ltac:(vm_compute; reflexivity)));
    [vm_compute; reflexivity | reflexivity].
Defined.

Lemma unparseable_actions_become_empty_list_witness :
  let p := with_actions sample_prefs (Garbled (pystr "[{type: click")) in
  let p' := with_actions p (Text_of (JList [])) in
  let urlopen := service p session_s1 (result_of (JList [JDict sample_record])) in
  let run c := identify Strptime.strptime urlopen c
                 sample_title sample_authors sample_identifiers empty_world in
  actions p = Garbled (pystr "[{type: click")
  /\ (forall sid q fields url w0,
        request_ok (retrieve_request p sid q fields url (JList [])) = true ->
        exists r logs,
          retrieve_data urlopen p sid q fields url w0 =
          (r, extend w0 ([(INFO, MRetrieveStart url); (WARN, MActionsFallback)] ++ logs)
                     [retrieve_request p sid q fields url (JList [])] [])
          /\ retrieve_data urlopen p' sid q fields url w0 =
             (r, extend w0 ([(INFO, MRetrieveStart url)] ++ logs)
                        [retrieve_request p sid q fields url (JList [])] []))
  /\ fst (run p) = fst (run p')
  /\ w_sent (snd (run p)) = w_sent (snd (run p'))
  /\ w_queue (snd (run p)) = w_queue (snd (run p')).
Proof.
  cbv zeta; split; [reflexivity|].
  apply (unparseable_actions_become_empty_list Strptime.strptime
           (service (with_actions sample_prefs (Garbled (pystr "[{type: click")))
                    session_s1 (result_of (JList [JDict sample_record])))
           (with_actions sample_prefs (Garbled (pystr "[{type: click")))
           (pystr "[{type: click")
           sample_title sample_authors sample_identifiers empty_world).
  reflexivity.
Defined.

Lemma no_session_no_retrieval_witness :
  let urlopen := service sample_prefs (Raises (HTTPError 500)) (result_of (JList [])) in
  let w' := snd (identify Strptime.strptime urlopen sample_prefs
                          sample_title sample_authors sample_identifiers
                          empty_world) in
  is_session (fst (create_session urlopen sample_prefs empty_world)) = false
  /\ w_queue w' = w_queue empty_world
  /\ w_sent w' = w_sent empty_world
                 ++ (if request_ok (session_request sample_prefs)
                     then [session_request sample_prefs] else [])
  /\ req_url (session_request sample_prefs)
     <> api_base_url sample_prefs ++ pystr "/retrieve".
Proof.
  cbv zeta; split; [vm_compute; reflexivity|].
  apply (no_session_no_retrieval Strptime.strptime
           (service sample_prefs (Raises (HTTPError 500)) (result_of (JList [])))
           sample_prefs sample_title sample_authors sample_identifiers empty_world).
  vm_compute; reflexivity.
Defined.

Lemma empty_result_is_retrieval_failure_witness :
  let urlopen := service sample_prefs session_s1 (result_of (JList [])) in
  identify Strptime.strptime urlopen sample_prefs
           sample_title sample_authors sample_identifiers empty_world =
  (Ok tt,
   extend empty_world
     ([(INFO, MIdentifyStart); (INFO, MSessionStart);
       (INFO, MSessionCreated (JStr (pystr "s1")));
       (INFO, MQuery (pystr "123") sample_title sample_authors);
       (INFO, MFormattedURL sample_url); (INFO, MUsingQuery (pystr "123"));
       (INFO, MRetrieveStart sample_url)]
      ++ actions_log sample_prefs
      ++ [(INFO, MRawResponse (JDict [(pystr "result", JList [])]));
          (INFO, MRetrieved 0); (ERROR, MRetrieveFailed)])
     [session_request sample_prefs;
      retrieve_request sample_prefs (JStr (pystr "s1")) (pystr "123") FIELDS
                       sample_url (effective_actions sample_prefs)]
     []).
Proof.
  cbv zeta.
  apply (empty_result_is_retrieval_failure Strptime.strptime
           (service sample_prefs session_s1 (result_of (JList [])))
           sample_prefs sample_title sample_authors sample_identifiers
           empty_world
           [(pystr "session_id", JStr (pystr "s1"))]
           [(pystr "result", JList [])]
           (JStr (pystr "s1")) sample_format_params sample_url (pystr "123"));
    vm_compute; reflexivity.
Defined.


Lemma url_is_formatted_from_encoded_fields_witness :
  let urlopen := service prefs_unknown_name session_s1 (result_of (JList [])) in
  build_format_params (pystr "123") sample_title sample_authors
  = Ok sample_format_params
  /\ str_format (request_url sample_prefs) sample_format_params = Ok sample_url
  /\ identify Strptime.strptime urlopen prefs_unknown_name
              sample_title sample_authors sample_identifiers empty_world =
     (Ok tt,
      extend empty_world
        [(INFO, MIdentifyStart); (INFO, MSessionStart);
         (INFO, MSessionCreated (JStr (pystr "s1")));
         (INFO, MQuery (pystr "123") sample_title sample_authors);
         (ERROR, MFormatKeyError (KeyError (pystr "publisher")))]
        [session_request prefs_unknown_name] []).
Proof.
  cbv zeta.
  split; [vm_compute; reflexivity | split; [vm_compute; reflexivity|]].
  pose proof (url_is_formatted_from_encoded_fields Strptime.strptime
                (service prefs_unknown_name session_s1 (result_of (JList [])))
                prefs_unknown_name sample_title sample_authors
                sample_identifiers empty_world) as (_ & _ & Habort).
  apply (Habort [(pystr "session_id", JStr (pystr "s1"))] (JStr (pystr "s1"))
                sample_format_params
                [Lit (pystr "https://example.org/?q="); Named (pystr "isbn");
                 Lit (pystr "&p=")]
                (pystr "publisher") []);
    vm_compute; reflexivity.
Defined.


(** C7, as the claim states it, fails: the positional placeholder [{}] is
    outside the recognized set, and [identify] does not abort with a report
    but lets the IndexError of [format] through; the error entry is not
    logged. *)
Lemma positional_placeholder_raises_IndexError :
  let run := identify Strptime.strptime
               (service prefs_positional session_s1 (result_of (JList [])))
               prefs_positional sample_title sample_authors sample_identifiers
               empty_world in
  forallb resolvable (request_url prefs_positional) = false
  /\ fst run = Raise IndexError
  /\ fst run <> Ok tt
  /\ existsb (fun entry => match snd entry with
                           | MFormatKeyError _ => true
                           | _ => false
                           end) (w_log (snd run)) = false.
Proof.
  cbv zeta; split; [reflexivity | split; [vm_compute; reflexivity|]].
  split; [vm_compute; discriminate | vm_compute; reflexivity].
Qed.

(* ===================================================================== *)
(** ** Further properties: strings *)
(* ===================================================================== *)

Lemma split_on_nonempty (sep : char) (s : str) : split_on sep s <> [].
Proof.
  destruct s as [|c s]; simpl; [discriminate|].
  destruct (c =? sep); [discriminate|].
  destruct (split_on sep s); discriminate.
Qed.

Lemma join_split_on (sep : char) (s : str) : join sep (split_on sep s) = s.
Proof.
  induction s as [|c s IH]; simpl; [reflexivity|].
  destruct (c =? sep) eqn:Hc.
  - apply N.eqb_eq in Hc; subst c.
    pose proof (split_on_nonempty sep s) as Hne.
    destruct (split_on sep s) as [|p ps]; [congruence|].
    simpl; simpl in IH; now rewrite IH.
  - pose proof (split_on_nonempty sep s) as Hne.
    destruct (split_on sep s) as [|p ps]; [congruence|].
    simpl in IH |- *. destruct ps; simpl; now rewrite <- IH.
Qed.

Lemma split_on_parts_clean (sep : char) (s : str) :
  Forall (fun p => char_in sep p = false) (split_on sep s).
Proof.
  induction s as [|c s IH]; simpl; [repeat constructor|].
  destruct (c =? sep) eqn:Hc; [constructor; [reflexivity|exact IH]|].
  destruct (split_on sep s) as [|p ps]; [repeat constructor; simpl|].
  - unfold char_in; simpl; now rewrite N.eqb_sym, Hc.
  - inversion IH; subst; constructor; [|assumption].
    unfold char_in in *; simpl; now rewrite N.eqb_sym, Hc.
Qed.

Lemma split_on_length (sep : char) (s : str) :
  List.length (split_on sep s) = S (List.length (filter (N.eqb sep) s)).
Proof.
  induction s as [|c s IH]; simpl; [reflexivity|].
  rewrite (N.eqb_sym sep c).
  destruct (c =? sep); simpl; [now rewrite IH|].
  pose proof (split_on_nonempty sep s) as Hne.
  destruct (split_on sep s); [congruence | exact IH].
Qed.

(** X1.  An authors or tags string is cut at its ASCII commas and nowhere
    else: there is one part more than there are commas, no part holds a
    comma, and the parts joined by commas give the string back, so no
    character other than the commas is dropped and nothing is trimmed. *)
Theorem split_field_parts_rejoin (s : str) :
  exists parts,
    split_field (JStr s) = JList (List.map JStr parts)
    /\ List.length parts = S (List.length (filter (N.eqb COMMA) s))
    /\ Forall (fun p => char_in COMMA p = false) parts
    /\ join COMMA parts = s.
Proof.
  exists (split_on COMMA s); split; [apply split_field_comma_only|].
  split; [apply split_on_length|].
  split; [apply split_on_parts_clean | apply join_split_on].
Qed.

Lemma lstrip_cut (s : str) :
  exists l, s = l ++ lstrip s /\ forallb is_space l = true
            /\ (forall c t, lstrip s = c :: t -> is_space c = false).
Proof.
  induction s as [|c s (l & Hs & Hl & Hhead)]; simpl.
  - exists []; repeat split; intros; discriminate.
  - destruct (is_space c) eqn:Hc.
    + exists (c :: l); simpl; rewrite Hc, Hl; repeat split; [now f_equal|exact Hhead].
    + exists []; repeat split; intros c' t Heq; inversion Heq; now subst.
Qed.

Lemma forallb_rev {A} (f : A -> bool) (l : list A) :
  forallb f (rev l) = forallb f l.
Proof.
  induction l as [|a l IH]; simpl; [reflexivity|].
  rewrite forallb_app, IH; simpl; rewrite andb_true_r; apply andb_comm.
Qed.

Lemma lstrip_all_space (s : str) : forallb is_space s = true -> lstrip s = [].
Proof.
  induction s as [|c s IH]; simpl; [reflexivity|].
  intros H; apply andb_true_iff in H as [Hc Hs]; rewrite Hc; now apply IH.
Qed.

(** X2.  The pubdate string handed to the date parser is the raw string
    without a run of whitespace at each end: what is cut off is whitespace
    only, what remains neither starts nor ends with whitespace, and the
    inside of the string is left as it is. *)
Theorem strip_cuts_whitespace_at_both_ends (s : str) :
  exists l r,
    s = l ++ strip s ++ r
    /\ forallb is_space l = true
    /\ forallb is_space r = true
    /\ (forall c t, strip s = c :: t -> is_space c = false)
    /\ (forall t c, strip s = t ++ [c] -> is_space c = false).
Proof.
  unfold strip, rstrip.
  destruct (lstrip_cut s) as (l & Hs & Hl & Hhead).
  destruct (lstrip_cut (rev (lstrip s))) as (r & Hr & Hrs & Hlast).
  exists l, (rev r).
  assert (Hmid : lstrip s = rev (lstrip (rev (lstrip s))) ++ rev r).
  { rewrite <- rev_app_distr, <- Hr; now rewrite rev_involutive. }
  split; [rewrite <- Hmid; exact Hs|].
  split; [exact Hl|].
  split; [now rewrite forallb_rev|].
  split.
  - intros c t Heq.
    destruct (lstrip s) as [|a m] eqn:Hm; [discriminate Heq|].
    rewrite Heq in Hmid; simpl in Hmid; inversion Hmid; subst a.
    now apply (Hhead c m).
  - intros t c Heq.
    apply (f_equal (@rev char)) in Heq.
    rewrite rev_involutive, rev_app_distr in Heq; simpl in Heq.
    now apply (Hlast c (rev t)).
Qed.

(* ===================================================================== *)
(** ** Further properties: percent-encoding of the query *)
(* ===================================================================== *)

Lemma utf8_char_bytes (c : char) (bs : list N) :
  utf8_char c = Some bs -> Forall (fun b => b < 256) bs.
Proof.
  assert (Hmod : forall x, x mod 64 < 64) by (intros x; apply N.mod_lt; discriminate).
  pose proof (Hmod c) as Hm0; pose proof (Hmod (c / 64)) as Hm1;
    pose proof (Hmod (c / 4096)) as Hm2.
  unfold utf8_char.
  destruct (c <? 128) eqn:H1.
  { apply N.ltb_lt in H1; intros H.
    assert (bs = [c]) by congruence; subst bs.
    repeat (apply Forall_cons; [lia|]); apply Forall_nil. }
  destruct (c <? 2048) eqn:H2.
  { apply N.ltb_lt in H2; intros H.
    assert (bs = [192 + c / 64; 128 + c mod 64]) by congruence; subst bs.
    assert (c / 64 < 32) by (apply N.Div0.div_lt_upper_bound; lia).
    repeat (apply Forall_cons; [lia|]); apply Forall_nil. }
  destruct (c <? 65536) eqn:H3.
  { apply N.ltb_lt in H3.
    destruct ((55296 <=? c) && (c <=? 57343)); [discriminate|]; intros H.
    assert (bs = [224 + c / 4096; 128 + (c / 64) mod 64; 128 + c mod 64])
      by congruence; subst bs.
    assert (c / 4096 < 16) by (apply N.Div0.div_lt_upper_bound; lia).
    repeat (apply Forall_cons; [lia|]); apply Forall_nil. }
  destruct (c <? 1114112) eqn:H4; [|discriminate].
  apply N.ltb_lt in H4; intros H.
  assert (bs = [240 + c / 262144; 128 + (c / 4096) mod 64;
                128 + (c / 64) mod 64; 128 + c mod 64]) by congruence; subst bs.
  assert (c / 262144 < 5) by (apply N.Div0.div_lt_upper_bound; lia).
  repeat (apply Forall_cons; [lia|]); apply Forall_nil.
Qed.

Lemma utf8_encode_bytes (s : str) (bs : list N) :
  utf8_encode s = Some bs -> Forall (fun b => b < 256) bs.
Proof.
  revert bs; induction s as [|c s IH]; simpl; intros bs H.
  - inversion H; constructor.
  - destruct (utf8_char c) as [cb|] eqn:Hc; [|discriminate].
    destruct (utf8_encode s) as [rest|]; [|discriminate].
    inversion H; subst bs; apply Forall_app; split;
      [now apply utf8_char_bytes with (c := c) | now apply IH].
Qed.

Lemma hex_digit_safe (d : N) : d < 16 -> quote_safe (hex_digit d) = true.
Proof.
  intros Hd; unfold hex_digit.
  assert (Hcases : d = 0 \/ d = 1 \/ d = 2 \/ d = 3 \/ d = 4 \/ d = 5 \/ d = 6
                   \/ d = 7 \/ d = 8 \/ d = 9 \/ d = 10 \/ d = 11 \/ d = 12
                   \/ d = 13 \/ d = 14 \/ d = 15) by lia.
  repeat (destruct Hcases as [->|Hcases]; [reflexivity|]); subst d; reflexivity.
Qed.

Lemma quote_byte_safe (b : N) : b < 256 -> forallb url_safe (quote_byte b) = true.
Proof.
  intros Hb; unfold quote_byte, url_safe.
  destruct (quote_safe b) eqn:Hs; simpl; [now rewrite Hs|].
  rewrite !hex_digit_safe; [reflexivity| |].
  - apply N.mod_lt; discriminate.
  - apply N.Div0.div_lt_upper_bound; exact Hb.
Qed.

Lemma quote_is_url_safe (s q : str) : quote s = Ok q -> forallb url_safe q = true.
Proof.
  unfold quote; destruct (utf8_encode s) as [bs|] eqn:Hbs; [|discriminate].
  intros H; inversion H; subst q; clear H.
  apply utf8_encode_bytes in Hbs.
  induction Hbs as [|b bs Hb _ IH]; simpl; [reflexivity|].
  now rewrite forallb_app, (quote_byte_safe _ Hb), IH.
Qed.

Lemma quote_only_UnicodeEncodeError (s : str) (e : exn) :
  quote s = Raise e -> e = UnicodeEncodeError.
Proof.
  unfold quote; destruct (utf8_encode s); intros H; inversion H; reflexivity.
Qed.

Lemma quote_safe_is_ascii (c : char) : quote_safe c = true -> c < 128.
Proof.
  unfold quote_safe; intros H.
  repeat (apply orb_true_iff in H as [H|H]);
    try (apply andb_true_iff in H as [_ H]; apply N.leb_le in H; lia);
    apply N.eqb_eq in H; lia.
Qed.

Lemma quote_fixes_safe_text (s : str) :
  forallb quote_safe s = true -> quote s = Ok s.
Proof.
  intros H; unfold quote.
  assert (Henc : utf8_encode s = Some s).
  { induction s as [|c s IH]; simpl; [reflexivity|].
    simpl in H; apply andb_true_iff in H as [Hc Hs].
    unfold utf8_char; apply quote_safe_is_ascii, N.ltb_lt in Hc.
    now rewrite Hc, (IH Hs). }
  rewrite Henc; f_equal.
  induction s as [|c s IH]; simpl; [reflexivity|].
  simpl in H; apply andb_true_iff in H as [Hc Hs].
  unfold quote_byte at 1; rewrite Hc; simpl; f_equal; apply IH; [exact Hs|].
  simpl in Henc; unfold utf8_char in Henc.
  apply quote_safe_is_ascii, N.ltb_lt in Hc; rewrite Hc in Henc.
  destruct (utf8_encode s) as [bs|]; inversion Henc; reflexivity.
Qed.

Lemma encoded_or_empty_safe (field : option str) (q : str) :
  encoded_or_empty field = Ok q -> forallb url_safe q = true.
Proof.
  unfold encoded_or_empty; destruct field as [s|].
  - destruct (str_truthy s); [apply quote_is_url_safe|].
    intros H; inversion H; reflexivity.
  - intros H; inversion H; reflexivity.
Qed.

(** X3.  The values [identify] substitutes into the URL template are keyed
    isbn, title, author, in that order, and each is made only of letters,
    digits, [_.-~/] and the percent sign: no blank, quote, [&], [#], [?] or
    brace of the caller's text reaches the URL unencoded. *)
Theorem format_params_are_url_safe
        (isbn : str) (title : option str) (authors : option (list str))
        (fp : list (str * str)) :
  build_format_params isbn title authors = Ok fp ->
  List.map fst fp = [pystr "isbn"; pystr "title"; pystr "author"]
  /\ Forall (fun kv => forallb url_safe (snd kv) = true) fp.
Proof.
  rewrite build_format_params_encodes; unfold res_bind.
  destruct (encoded_or_empty (Some isbn)) as [qi|] eqn:Hi; [|discriminate].
  destruct (encoded_or_empty title) as [qt|] eqn:Ht; [|discriminate].
  destruct (encoded_or_empty (first_author authors)) as [qa|] eqn:Ha;
    [|discriminate].
  intros H; inversion H; subst fp; split; [reflexivity|].
  repeat constructor; simpl; eapply encoded_or_empty_safe; eassumption.
Qed.

Lemma format_params_are_url_safe_witness :
  build_format_params (pystr "123") sample_title sample_authors
  = Ok sample_format_params
  /\ List.map fst sample_format_params
     = [pystr "isbn"; pystr "title"; pystr "author"]
  /\ Forall (fun kv => forallb url_safe (snd kv) = true) sample_format_params.
Proof.
  split; [vm_compute; reflexivity|].
  apply (format_params_are_url_safe (pystr "123") sample_title sample_authors).
  vm_compute; reflexivity.
Defined.

(** X4.  An ISBN, title or first author made only of letters, digits and
    [_.-~/] is substituted as it is: encoding changes nothing in it. *)
Theorem safe_fields_are_substituted_verbatim
        (isbn title author : str) (rest : list str) :
  forallb quote_safe isbn = true ->
  forallb quote_safe title = true ->
  forallb quote_safe author = true ->
  build_format_params isbn (Some title) (Some (author :: rest)) =
  Ok [(pystr "isbn", isbn); (pystr "title", title); (pystr "author", author)].
Proof.
  intros Hi Ht Ha; rewrite build_format_params_encodes.
  unfold encoded_or_empty, first_author.
  rewrite (quote_fixes_safe_text _ Hi), (quote_fixes_safe_text _ Ht),
    (quote_fixes_safe_text _ Ha).
  destruct isbn, title, author; reflexivity.
Qed.

Lemma safe_fields_are_substituted_verbatim_witness :
  forallb quote_safe (pystr "9780131103627") = true
  /\ forallb quote_safe (pystr "Go") = true
  /\ forallb quote_safe (pystr "Kernighan") = true
  /\ build_format_params (pystr "9780131103627") (Some (pystr "Go"))
       (Some [pystr "Kernighan"; pystr "Ritchie"]) =
     Ok [(pystr "isbn", pystr "9780131103627"); (pystr "title", pystr "Go");
         (pystr "author", pystr "Kernighan")].
Proof.
  split; [reflexivity | split; [reflexivity | split; [reflexivity|]]].
  apply (safe_fields_are_substituted_verbatim
           (pystr "9780131103627") (pystr "Go") (pystr "Kernighan")
           [pystr "Ritchie"]); reflexivity.
Defined.

(* ===================================================================== *)
(** ** Further properties: the normalisation loop *)
(* ===================================================================== *)

Section LoopFacts.

Variable strptime : str -> str -> res datetime.

Lemma strip_blank (raw : str) : forallb is_space raw = true -> strip raw = [].
Proof. intros H; unfold strip, rstrip; now rewrite (lstrip_all_space _ H). Qed.

Lemma try_formats_effects (s : str) (fmts : list str) (w : world) :
  exists r logs, try_formats strptime s fmts w = (r, extend w logs [] []).
Proof.
  induction fmts as [|fmt rest IH]; simpl; run.
  - do 2 eexists; reflexivity.
  - destruct (strptime s fmt) as [d|e]; run; [do 2 eexists; reflexivity|].
    destruct (is_ValueError e); run.
    + destruct IH as (r & logs & IH); rewrite IH; exists r, logs; reflexivity.
    + exists (Raise e), []; now rewrite extend_nil.
Qed.

(** Whatever the parser does, the pubdate step returns: it raises nothing,
    sends nothing and queues nothing. *)
Lemma parse_pubdate_effects (s : str) (w : world) :
  exists o logs, parse_pubdate strptime s w = (Ok o, extend w logs [] []).
Proof.
  unfold parse_pubdate; destruct (str_truthy s); [|run; do 2 eexists; reflexivity].
  unfold try_except.
  destruct (try_formats_effects s PUBDATE_FORMATS w) as ([o|e] & logs & H);
    rewrite H; [do 2 eexists; reflexivity|].
  run; do 2 eexists; reflexivity.
Qed.

Lemma normalize_item_cases (item : list (str * json)) (w : world) :
  (is_str (dict_get item (pystr "pubdate") (JStr [])) = false
   /\ normalize_item strptime item w =
      (Raise AttributeError, extend w [(INFO, MProcessItem (JDict item))] [] []))
  \/ (is_str (dict_get item (pystr "pubdate") (JStr [])) = true
      /\ exists o logs,
          normalize_item strptime item w =
          (Ok tt, extend w logs [] [record_of item o])).
Proof.
  unfold normalize_item; run.
  destruct (dict_get item (pystr "pubdate") (JStr [])) as [| | | |raw| |];
    run; try (left; split; reflexivity).
  right; split; [reflexivity|].
  destruct (parse_pubdate_effects (strip raw)
              (extend w [(INFO, MProcessItem (JDict item));
                         (INFO, MRawPubdate (strip raw))] [] []))
    as (o & logs & H).
  rewrite H; run; exists o; eexists; reflexivity.
Qed.

(** X5.  A record whose pubdate is a string, or is missing, is never lost:
    whatever the date parser does with the string, the loop body raises
    nothing, sends nothing and queues exactly one record, whose fields other
    than the pubdate are read off the raw record (title, publisher and
    comments default to the empty string, authors and tags to the empty
    list). *)
Theorem string_pubdate_record_is_always_queued
        (item : list (str * json)) (w : world) :
  is_str (dict_get item (pystr "pubdate") (JStr [])) = true ->
  exists o logs,
    normalize_item strptime item w = (Ok tt, extend w logs [] [record_of item o]).
Proof.
  intros Hstr.
  destruct (normalize_item_cases item w) as [[Hno _]|[_ H]]; [congruence|exact H].
Qed.

(** X6.  A pubdate made of whitespace only is a missing pubdate: the date
    parser is not consulted, the record is queued with an absent pubdate,
    and neither a warning nor an error is logged. *)
Theorem blank_pubdate_is_absent
        (item : list (str * json)) (raw : str) (w : world) :
  dict_get item (pystr "pubdate") (JStr []) = JStr raw ->
  forallb is_space raw = true ->
  normalize_item strptime item w =
  (Ok tt,
   extend w
     [(INFO, MProcessItem (JDict item)); (INFO, MRawPubdate []);
      (INFO, MNoPubdate);
      (INFO, MQueued (dict_get item (pystr "title") (JStr [])))]
     [] [record_of item None]).
Proof.
  intros Hget Hblank; unfold normalize_item; run.
  rewrite Hget; run. rewrite (strip_blank _ Hblank).
  unfold parse_pubdate; cbn [str_truthy]; run; reflexivity.
Qed.

Lemma mapping_or_not (item : json) :
  is_dict item = false \/ exists d, item = JDict d.
Proof. destruct item; eauto. Qed.

Lemma mappings_skip (item : json) (rest : list json) :
  is_dict item = false -> mappings (item :: rest) = mappings rest.
Proof. destruct item; try reflexivity; discriminate. Qed.

Lemma process_items_effects (data : list json) (w : world) :
  exists r logs recs,
    process_items strptime data w = (r, extend w logs [] recs)
    /\ Forall2 (fun d mi => exists o, mi = record_of d o)
               (firstn (List.length recs) (mappings data)) recs
    /\ (r = Ok tt -> List.length recs = List.length (mappings data)).
Proof.
  revert w; induction data as [|item rest IH]; intros w.
  - exists (Ok tt), [], []; simpl; rewrite extend_nil; repeat split; constructor.
  - destruct (mapping_or_not item) as [Hskip|[d ->]].
    + rewrite (process_items_skip strptime item rest w Hskip),
        (mappings_skip item rest Hskip).
      destruct (IH (extend w [(INFO, MInvalidItem item)] [] []))
        as (r & logs & recs & Hrun & Hrecs & Hlen).
      rewrite Hrun, extend_extend; simpl.
      exists r; do 2 eexists; split; [reflexivity | split; assumption].
    + simpl; unfold bind.
      destruct (normalize_item_cases d w) as [[_ Hrun]|[_ (o & logs & Hrun)]];
        rewrite Hrun.
      * exists (Raise AttributeError); do 2 eexists.
        split; [reflexivity | split; [constructor | discriminate]].
      * destruct (IH (extend w logs [] [record_of d o]))
          as (r & logs' & recs & Hrest & Hrecs & Hlen).
        rewrite Hrest, extend_extend; simpl.
        exists r, (logs ++ logs'), (record_of d o :: recs).
        split; [reflexivity|]; simpl; split.
        -- constructor; [now exists o | exact Hrecs].
        -- intros Hr; now rewrite (Hlen Hr).
Qed.

(** X7.  What the loop leaves behind, on every list and whatever the date
    parser does: it sends no request; the records it queues are, in order,
    those of the first mappings of the list, one each, every field but the
    pubdate read off the mapping; when the loop ends without an exception,
    every mapping of the list has its record.  Each queued record carries
    the isbn in its identifier map exactly when its isbn is truthy. *)
Theorem loop_queues_one_record_per_mapping (data : list json) (w : world) :
  exists r logs recs,
    process_items strptime data w = (r, extend w logs [] recs)
    /\ Forall2 (fun d mi => exists o, mi = record_of d o)
               (firstn (List.length recs) (mappings data)) recs
    /\ (r = Ok tt -> List.length recs = List.length (mappings data))
    /\ Forall identifier_rule recs.
Proof.
  destruct (process_items_effects data w) as (r & logs & recs & Hrun & Hrecs & Hlen).
  exists r, logs, recs; repeat split; try assumption.
  clear Hrun Hlen; induction Hrecs as [|d mi ds mis [o ->] _ IH]; constructor;
    [reflexivity | exact IH].
Qed.

Lemma normalize_item_well_shaped (d : list (str * json)) (w : world) :
  well_shaped strptime (JDict d) = true ->
  exists logs,
    normalize_item strptime d w = (Ok tt, extend w logs [] [canonical strptime d]).
Proof.
  unfold well_shaped, canonical, pubdate_text; intros H.
  apply andb_true_iff in H as [Hstr Hval].
  destruct (dict_get d (pystr "pubdate") (JStr [])) as [| | | |raw| |] eqn:Hget;
    try discriminate Hstr.
  unfold normalize_item; run. rewrite Hget; run.
  rewrite (parse_pubdate_run strptime _ _ Hval); run.
  eexists; reflexivity.
Qed.

Lemma process_items_well_shaped (data : list json) (w : world) :
  forallb (well_shaped strptime) data = true ->
  exists logs,
    process_items strptime data w =
    (Ok tt, extend w logs [] (List.map (canonical strptime) (mappings data))).
Proof.
  revert w; induction data as [|item rest IH]; intros w H.
  - exists []; simpl; now rewrite extend_nil.
  - simpl in H; apply andb_true_iff in H as [Hitem Hrest].
    destruct (mapping_or_not item) as [Hskip|[d ->]].
    + rewrite (process_items_skip strptime item rest w Hskip),
        (mappings_skip item rest Hskip).
      destruct (IH (extend w [(INFO, MInvalidItem item)] [] []) Hrest)
        as [logs Hrun].
      rewrite Hrun, extend_extend; simpl; eexists; reflexivity.
    + simpl; unfold bind.
      destruct (normalize_item_well_shaped d w Hitem) as [logs Hrun]; rewrite Hrun.
      destruct (IH (extend w logs [] [canonical strptime d]) Hrest) as [logs' Hrest'].
      rewrite Hrest', extend_extend; simpl; eexists; reflexivity.
Qed.

(** X8.  On a list whose mappings all have a string (or missing) pubdate,
    with a date parser that fails by ValueError only, the loop ends without
    an exception and queues the canonical records of the mappings, in the
    order of the list, and nothing else: entries that are not mappings
    contribute nothing. *)
Theorem loop_queues_canonical_records (data : list json) (w : world) :
  forallb (well_shaped strptime) data = true ->
  exists logs,
    process_items strptime data w =
    (Ok tt, extend w logs [] (List.map (canonical strptime) (mappings data))).
Proof. apply process_items_well_shaped. Qed.

(** X9.  A mapping whose pubdate is not a string ends the loop with an
    AttributeError, but the records queued before it stay queued: the queue
    holds the records of the entries before the failing one and nothing of
    the entries after it. *)
Theorem records_before_a_failure_stay_queued
        (pre post : list json) (bad : list (str * json)) (w w1 : world) :
  process_items strptime pre w = (Ok tt, w1) ->
  is_str (dict_get bad (pystr "pubdate") (JStr [])) = false ->
  process_items strptime (pre ++ JDict bad :: post) w =
  (Raise AttributeError, extend w1 [(INFO, MProcessItem (JDict bad))] [] []).
Proof.
  intros Hpre Hbad.
  rewrite process_items_app, (bind_ok _ _ _ _ _ Hpre).
  now apply non_string_pubdate_raises.
Qed.

Lemma process_items_all_skipped (items : list json) (w : world) :
  forallb (fun item => negb (is_dict item)) items = true ->
  process_items strptime items w = (Ok tt, extend w (skipped_log items) [] []).
Proof.
  revert w; induction items as [|item rest IH]; intros w H.
  - simpl; now rewrite extend_nil.
  - simpl in H; apply andb_true_iff in H as [Hitem Hrest].
    rewrite process_items_skip by (now destruct item).
    rewrite (IH _ Hrest), extend_extend; reflexivity.
Qed.

End LoopFacts.

(* ===================================================================== *)
(** ** Further properties: the two clients *)
(* ===================================================================== *)

Section ClientFacts.

Variable urlopen : Request -> http_reply.
Variable prefs : Prefs.


(** X11.  A session reply (to a session request that [Request] accepts)
    that is JSON but carries no session id is not turned into the failure
    result: an object without the key makes
    [create_session] raise KeyError, a value that is not an object makes it
    raise TypeError.  Neither is caught, and nothing is logged after the
    start entry. *)
Theorem session_reply_without_id_raises (w : world) :
  request_ok (session_request prefs) = true ->
  (forall sd,
      urlopen (session_request prefs) = Responds (Text_of (JDict sd)) ->
      assoc (pystr "session_id") sd = None ->
      create_session urlopen prefs w =
      (Raise (KeyError (pystr "session_id")),
       extend w [(INFO, MSessionStart)] [session_request prefs] []))
  /\ (forall j,
         urlopen (session_request prefs) = Responds (Text_of j) ->
         is_dict j = false ->
         create_session urlopen prefs w =
         (Raise TypeError,
          extend w [(INFO, MSessionStart)] [session_request prefs] [])).
Proof.
  intros Hok; unfold create_session; split.
  - intros sd Hreply Hmiss; run. rewrite Hreply; run. rewrite Hmiss; run.
    reflexivity.
  - intros j Hreply Hj; run. rewrite Hreply; run.
    destruct j; try discriminate Hj; run; reflexivity.
Qed.

Lemma retrieve_data_URLError (sid : json) (q : str) (fields : list str)
      (url : str) (e : exn) (w : world) :
  request_ok (retrieve_request prefs sid q fields url (effective_actions prefs))
  = true ->
  urlopen (retrieve_request prefs sid q fields url (effective_actions prefs))
  = Raises e ->
  is_URLError e = true ->
  retrieve_data urlopen prefs sid q fields url w =
  (Ok JNull,
   extend w ([(INFO, MRetrieveStart url)] ++ actions_log prefs
             ++ [(ERROR, MRetrieveHttpError e)])
          [retrieve_request prefs sid q fields url (effective_actions prefs)]
          []).
Proof.
  unfold retrieve_data, actions_log, effective_actions; intros Hok Hreply He; run.
  destruct (actions prefs) as [a|raw]; run; rewrite Hreply, He; run; reflexivity.
Qed.

Lemma retrieve_data_result (sid : json) (q : str) (fields : list str)
      (url : str) (rd : list (str * json)) (n : nat) (w : world) :
  request_ok (retrieve_request prefs sid q fields url (effective_actions prefs))
  = true ->
  urlopen (retrieve_request prefs sid q fields url (effective_actions prefs))
  = Responds (Text_of (JDict rd)) ->
  py_len (dict_get rd (pystr "result") (JList [])) = Ok n ->
  retrieve_data urlopen prefs sid q fields url w =
  (Ok (dict_get rd (pystr "result") (JList [])),
   extend w ([(INFO, MRetrieveStart url)] ++ actions_log prefs
             ++ [(INFO, MRawResponse (JDict rd)); (INFO, MRetrieved n)])
          [retrieve_request prefs sid q fields url (effective_actions prefs)]
          []).
Proof.
  unfold retrieve_data, actions_log, effective_actions; intros Hok Hreply Hlen; run.
  destruct (actions prefs) as [a|raw]; run; rewrite Hreply; run;
    rewrite Hlen; run; reflexivity.
Qed.

(** X12.  A retrieve reply (to a retrieve request that [Request] accepts)
    that is not what the client expects is not turned into the failure
    result either.  A body that is not JSON raises
    JSONDecodeError, a JSON value that is not an object raises
    AttributeError, and an object whose result is null, a boolean or a
    number raises TypeError when its length is taken.  Each exception leaves
    [retrieve_data] after the one request, with nothing queued. *)
Theorem retrieve_reply_of_wrong_shape_raises
        (sid : json) (q : str) (fields : list str) (url : str) (w : world) :
  let req := retrieve_request prefs sid q fields url (effective_actions prefs) in
  request_ok req = true ->
  (forall raw,
      urlopen req = Responds (Garbled raw) ->
      exists logs,
        retrieve_data urlopen prefs sid q fields url w =
        (Raise JSONDecodeError, extend w logs [req] []))
  /\ (forall j,
         urlopen req = Responds (Text_of j) ->
         is_dict j = false ->
         exists logs,
           retrieve_data urlopen prefs sid q fields url w =
           (Raise AttributeError, extend w logs [req] []))
  /\ (forall rd,
         urlopen req = Responds (Text_of (JDict rd)) ->
         has_len (dict_get rd (pystr "result") (JList [])) = false ->
         exists logs,
           retrieve_data urlopen prefs sid q fields url w =
           (Raise TypeError, extend w logs [req] [])).
Proof.
  cbv zeta; unfold retrieve_data, effective_actions; intros Hok; repeat split.
  - intros raw Hreply; run.
    destruct (actions prefs) as [a|raw']; run; rewrite Hreply; run;
      eexists; reflexivity.
  - intros j Hreply Hj; run.
    destruct (actions prefs) as [a|raw']; run; rewrite Hreply; run;
      destruct j; try discriminate Hj; run; eexists; reflexivity.
  - intros rd Hreply Hlen; run.
    destruct (actions prefs) as [a|raw']; run; rewrite Hreply; run;
      destruct (dict_get rd (pystr "result") (JList []));
      try discriminate Hlen; run; eexists; reflexivity.
Qed.

(** X13.  Of a reply (to a retrieve request that [Request] accepts) that
    is a JSON object, [retrieve_data] returns the value under the key
    result as it is, whenever that value has a length
    (a list, a string or an object), and the empty list when the key is
    missing: a missing key is not the failure result.  The number of entries
    is logged. *)
Theorem retrieve_returns_the_result_value
        (sid : json) (q : str) (fields : list str) (url : str)
        (rd : list (str * json)) (n : nat) (w : world) :
  request_ok (retrieve_request prefs sid q fields url (effective_actions prefs))
  = true ->
  urlopen (retrieve_request prefs sid q fields url (effective_actions prefs))
  = Responds (Text_of (JDict rd)) ->
  py_len (dict_get rd (pystr "result") (JList [])) = Ok n ->
  retrieve_data urlopen prefs sid q fields url w =
  (Ok (dict_get rd (pystr "result") (JList [])),
   extend w ([(INFO, MRetrieveStart url)] ++ actions_log prefs
             ++ [(INFO, MRawResponse (JDict rd)); (INFO, MRetrieved n)])
          [retrieve_request prefs sid q fields url (effective_actions prefs)]
          [])
  /\ (assoc (pystr "result") rd = None ->
      dict_get rd (pystr "result") (JList []) = JList [] /\ n = 0%nat).
Proof.
  intros Hok Hreply Hlen; split; [now apply retrieve_data_result|].
  intros Hmiss; unfold dict_get in *; rewrite Hmiss in *; simpl in Hlen.
  split; [reflexivity | congruence].
Qed.

(** X14.  With a command configured, the query plays no part in the
    retrieval: the request, and so the whole call, is the same for any two
    queries. *)
Theorem configured_command_overrides_query
        (sid : json) (q1 q2 : str) (fields : list str) (url : str) (w : world) :
  str_truthy (cmd prefs) = true ->
  retrieve_data urlopen prefs sid q1 fields url w =
  retrieve_data urlopen prefs sid q2 fields url w.
Proof.
  intros Hcmd; unfold retrieve_data, retrieve_request; now rewrite Hcmd.
Qed.

End ClientFacts.

(* ===================================================================== *)
(** ** Further properties: the orchestrator *)
(* ===================================================================== *)

(** Two descriptions of the same world, up to the bracketing of appends. *)
Ltac same_world :=
  unfold extend; simpl;
  repeat rewrite <- app_assoc; repeat rewrite app_nil_r; simpl;
  reflexivity.

Lemma py_iter_of_non_list (v : json) (items : list json) :
  is_list v = false ->
  py_iter v = Ok items ->
  forallb (fun item => negb (is_dict item)) items = true.
Proof.
  destruct v as [| | | |s|l|d]; simpl; try discriminate;
    intros _ [= <-].
  - induction s as [|c s IH]; simpl; [reflexivity | exact IH].
  - induction d as [|kv d IH]; simpl; [reflexivity | exact IH].
Qed.

Section OrchestratorFacts.

Variable strptime : str -> str -> res datetime.
Variable urlopen : Request -> http_reply.
Variable prefs : Prefs.

(** With a session, a formatted URL and a query, [identify] gets to the
    retrieval call, and from there on it is the retrieval followed by
    lines 131-190. *)
Lemma identify_reaches_retrieval
      (title : option str) (authors : option (list str))
      (identifiers : list (str * str)) (w : world)
      (sd : list (str * json)) (sid : json)
      (fp : list (str * str)) (url q : str) :
  request_ok (session_request prefs) = true ->
  urlopen (session_request prefs) = Responds (Text_of (JDict sd)) ->
  assoc (pystr "session_id") sd = Some sid ->
  truthy sid = true ->
  build_format_params (dict_get identifiers (pystr "isbn") []) title authors
  = Ok fp ->
  str_format (request_url prefs) fp = Ok url ->
  query_of (dict_get identifiers (pystr "isbn") []) title = Some q ->
  str_truthy q = true ->
  identify strptime urlopen prefs title authors identifiers w =
  bind (retrieve_data urlopen prefs sid q FIELDS url) (after_retrieve strptime)
       (extend w
          (log_before_retrieval sid (dict_get identifiers (pystr "isbn") [])
                                title authors url q)
          [session_request prefs] []).
Proof.
  intros Hok Hreply Hsid Htruthy Hfp Hurl Hquery Hq.
  unfold identify, query_of in *; run.
  rewrite (create_session_ok urlopen prefs sd sid _ Hok Hreply Hsid), Htruthy; run.
  rewrite Hfp; run. rewrite Hurl; run.
  rewrite Hquery; cbn [opt_truthy]; rewrite Hq; run.
  reflexivity.
Qed.

(** X15.  When the retrieve call fails with a URLError (connection error or
    non-2xx status), both requests being ones [Request] accepts, [identify]
    logs the HTTP error and the retrieval
    failure and returns normally: nothing is queued, and the retrieve
    request is not sent a second time. *)
Theorem retrieval_URLError_ends_identify
        (title : option str) (authors : option (list str))
        (identifiers : list (str * str)) (w : world)
        (sd : list (str * json)) (sid : json)
        (fp : list (str * str)) (url q : str) (e : exn) :
  let isbn := dict_get identifiers (pystr "isbn") [] in
  let req := retrieve_request prefs sid q FIELDS url (effective_actions prefs) in
  request_ok (session_request prefs) = true ->
  request_ok req = true ->
  urlopen (session_request prefs) = Responds (Text_of (JDict sd)) ->
  assoc (pystr "session_id") sd = Some sid ->
  truthy sid = true ->
  build_format_params isbn title authors = Ok fp ->
  str_format (request_url prefs) fp = Ok url ->
  query_of isbn title = Some q ->
  str_truthy q = true ->
  urlopen req = Raises e ->
  is_URLError e = true ->
  identify strptime urlopen prefs title authors identifiers w =
  (Ok tt,
   extend w
     (log_before_retrieval sid isbn title authors url q
      ++ [(INFO, MRetrieveStart url)] ++ actions_log prefs
      ++ [(ERROR, MRetrieveHttpError e); (ERROR, MRetrieveFailed)])
     [session_request prefs; req] []).
Proof.
  intros isbn req Hok Hrok Hreply Hsid Htruthy Hfp Hurl Hquery Hq Hretr He.
  subst isbn req.
  rewrite (identify_reaches_retrieval title authors identifiers w sd sid fp url q
             Hok Hreply Hsid Htruthy Hfp Hurl Hquery Hq).
  unfold bind.
  rewrite (retrieve_data_URLError urlopen prefs sid q FIELDS url e _ Hrok Hretr He).
  unfold after_retrieve; cbn [truthy negb]; run.
  unfold log_before_retrieval; same_world.
Qed.

(** X16.  The whole of a successful lookup, both requests being ones
    [Request] accepts.  The session id of the first
    reply goes into the retrieve request, together with the formatted URL
    and the query, which is the ISBN when there is one and the title
    otherwise.  When the reply holds a non-empty list whose mappings have
    string (or missing) pubdates, [identify] returns normally, has sent the
    two requests in that order, has queued the canonical records of the
    mappings in the order of the list, and closes the log with the
    completion entry. *)
Theorem identify_queues_the_retrieved_records
        (title : option str) (authors : option (list str))
        (identifiers : list (str * str)) (w : world)
        (sd rd : list (str * json)) (sid : json)
        (fp : list (str * str)) (url q : str)
        (item : json) (items : list json) :
  let isbn := dict_get identifiers (pystr "isbn") [] in
  let req := retrieve_request prefs sid q FIELDS url (effective_actions prefs) in
  request_ok (session_request prefs) = true ->
  request_ok req = true ->
  urlopen (session_request prefs) = Responds (Text_of (JDict sd)) ->
  assoc (pystr "session_id") sd = Some sid ->
  truthy sid = true ->
  build_format_params isbn title authors = Ok fp ->
  str_format (request_url prefs) fp = Ok url ->
  query_of isbn title = Some q ->
  str_truthy q = true ->
  urlopen req = Responds (Text_of (JDict rd)) ->
  dict_get rd (pystr "result") (JList []) = JList (item :: items) ->
  forallb (well_shaped strptime) (item :: items) = true ->
  exists loop_log,
    identify strptime urlopen prefs title authors identifiers w =
    (Ok tt,
     extend w
       (log_before_retrieval sid isbn title authors url q
        ++ [(INFO, MRetrieveStart url)] ++ actions_log prefs
        ++ [(INFO, MRawResponse (JDict rd));
            (INFO, MRetrieved (S (List.length items)))]
        ++ loop_log ++ [(INFO, MIdentifyDone)])
       [session_request prefs; req]
       (List.map (canonical strptime) (mappings (item :: items)))).
Proof.
  intros isbn req Hok Hrok Hreply Hsid Htruthy Hfp Hurl Hquery Hq Hretr Hres Hshape.
  subst isbn req.
  rewrite (identify_reaches_retrieval title authors identifiers w sd sid fp url q
             Hok Hreply Hsid Htruthy Hfp Hurl Hquery Hq).
  unfold bind.
  rewrite (retrieve_data_result urlopen prefs sid q FIELDS url rd
             (S (List.length items)) _ Hrok Hretr)
    by (rewrite Hres; reflexivity).
  rewrite Hres; unfold after_retrieve; cbn [truthy negb py_iter]; run.
  match goal with
  | |- context [process_items strptime (item :: items) ?w0] =>
      destruct (process_items_well_shaped strptime (item :: items) w0 Hshape)
        as [loop_log Hloop]
  end.
  rewrite Hloop; run.
  exists loop_log; unfold log_before_retrieval; same_world.
Qed.

(** X17.  A result that has entries but is not a list (a string, or a
    single object instead of a list of objects), received for requests that
    [Request] accepts, yields no record and no
    error: the loop visits its characters, or its keys, logs each as an
    invalid entry, and [identify] completes normally with nothing queued. *)
Theorem result_that_is_not_a_list_yields_nothing
        (title : option str) (authors : option (list str))
        (identifiers : list (str * str)) (w : world)
        (sd rd : list (str * json)) (sid : json)
        (fp : list (str * str)) (url q : str) (n : nat) :
  let isbn := dict_get identifiers (pystr "isbn") [] in
  let req := retrieve_request prefs sid q FIELDS url (effective_actions prefs) in
  let v := dict_get rd (pystr "result") (JList []) in
  request_ok (session_request prefs) = true ->
  request_ok req = true ->
  urlopen (session_request prefs) = Responds (Text_of (JDict sd)) ->
  assoc (pystr "session_id") sd = Some sid ->
  truthy sid = true ->
  build_format_params isbn title authors = Ok fp ->
  str_format (request_url prefs) fp = Ok url ->
  query_of isbn title = Some q ->
  str_truthy q = true ->
  urlopen req = Responds (Text_of (JDict rd)) ->
  is_list v = false ->
  truthy v = true ->
  py_len v = Ok n ->
  exists items,
    py_iter v = Ok items
    /\ identify strptime urlopen prefs title authors identifiers w =
       (Ok tt,
        extend w
          (log_before_retrieval sid isbn title authors url q
           ++ [(INFO, MRetrieveStart url)] ++ actions_log prefs
           ++ [(INFO, MRawResponse (JDict rd)); (INFO, MRetrieved n)]
           ++ skipped_log items ++ [(INFO, MIdentifyDone)])
          [session_request prefs; req] []).
Proof.
  intros isbn req v Hok Hrok Hreply Hsid Htruthy Hfp Hurl Hquery Hq Hretr Hv
         Hnonempty Hlen.
  subst isbn req.
  assert (Hiter : exists items, py_iter v = Ok items)
    by (destruct v; try discriminate Hlen; eexists; reflexivity).
  destruct Hiter as [items Hiter]; exists items; split; [exact Hiter|].
  rewrite (identify_reaches_retrieval title authors identifiers w sd sid fp url q
             Hok Hreply Hsid Htruthy Hfp Hurl Hquery Hq).
  unfold bind.
  rewrite (retrieve_data_result urlopen prefs sid q FIELDS url rd n _ Hrok Hretr Hlen).
  fold v; unfold after_retrieve; rewrite Hnonempty; cbn [negb]; run.
  rewrite Hiter; run.
  rewrite (process_items_all_skipped strptime items _
             (py_iter_of_non_list v items Hv Hiter)).
  run; unfold log_before_retrieval; same_world.
Qed.

Lemma build_format_params_raises (isbn : str) (title : option str)
      (authors : option (list str)) (e : exn) :
  build_format_params isbn title authors = Raise e -> e = UnicodeEncodeError.
Proof.
  rewrite build_format_params_encodes; unfold res_bind, encoded_or_empty.
  repeat match goal with
         | |- context [match ?x with Some _ => _ | None => _ end] => destruct x
         | |- context [if str_truthy ?s then _ else _] => destruct (str_truthy s)
         | |- context [quote ?s] =>
             let H := fresh "Hq" in
             destruct (quote s) eqn:H;
             [|apply quote_only_UnicodeEncodeError in H; subst]
         end;
    intros H; inversion H; reflexivity.
Qed.

(** X18.  The encoding of the query is not guarded: when the ISBN, the
    title or the first author cannot be encoded as UTF-8 (a lone surrogate
    in the text), [identify] raises UnicodeEncodeError right after the
    session call (made with a session URL that [Request] accepts).  The
    session request has been sent, no retrieve request
    follows, nothing is queued and the failure is not logged. *)
Theorem unencodable_query_escapes_identify
        (title : option str) (authors : option (list str))
        (identifiers : list (str * str)) (w : world)
        (sd : list (str * json)) (sid : json) (e : exn) :
  let isbn := dict_get identifiers (pystr "isbn") [] in
  request_ok (session_request prefs) = true ->
  urlopen (session_request prefs) = Responds (Text_of (JDict sd)) ->
  assoc (pystr "session_id") sd = Some sid ->
  truthy sid = true ->
  build_format_params isbn title authors = Raise e ->
  e = UnicodeEncodeError
  /\ identify strptime urlopen prefs title authors identifiers w =
     (Raise UnicodeEncodeError,
      extend w
        [(INFO, MIdentifyStart); (INFO, MSessionStart);
         (INFO, MSessionCreated sid); (INFO, MQuery isbn title authors)]
        [session_request prefs] []).
Proof.
  intros isbn Hok Hreply Hsid Htruthy Hfp; subst isbn.
  pose proof (build_format_params_raises _ _ _ _ Hfp) as ->.
  split; [reflexivity|].
  unfold identify; run.
  rewrite (create_session_ok urlopen prefs sd sid _ Hok Hreply Hsid), Htruthy; run.
  rewrite Hfp; run; reflexivity.
Qed.


End OrchestratorFacts.

(* ===================================================================== *)
(** ** The further properties on concrete runs *)
(* ===================================================================== *)

Lemma string_pubdate_record_is_always_queued_witness :
  is_str (dict_get sample_record (pystr "pubdate") (JStr [])) = true
  /\ exists o logs,
      normalize_item Strptime.strptime sample_record empty_world =
      (Ok tt, extend empty_world logs [] [record_of sample_record o]).
Proof.
  split; [reflexivity|].
  apply (string_pubdate_record_is_always_queued Strptime.strptime
           sample_record empty_world).
  reflexivity.
Defined.

Lemma blank_pubdate_is_absent_witness :
  dict_get blank_record (pystr "pubdate") (JStr []) = JStr (pystr "   ")
  /\ forallb is_space (pystr "   ") = true
  /\ normalize_item Strptime.strptime blank_record empty_world =
     (Ok tt,
      extend empty_world
        [(INFO, MProcessItem (JDict blank_record)); (INFO, MRawPubdate []);
         (INFO, MNoPubdate);
         (INFO, MQueued (dict_get blank_record (pystr "title") (JStr [])))]
        [] [record_of blank_record None]).
Proof.
  split; [reflexivity | split; [reflexivity|]].
  apply (blank_pubdate_is_absent Strptime.strptime blank_record (pystr "   ")
           empty_world); reflexivity.
Defined.

Lemma loop_queues_canonical_records_witness :
  let data := [JDict sample_record; JInt 4; JDict blank_record] in
  forallb (well_shaped Strptime.strptime) data = true
  /\ exists logs,
      process_items Strptime.strptime data empty_world =
      (Ok tt,
       extend empty_world logs []
         (List.map (canonical Strptime.strptime) (mappings data))).
Proof.
  cbv zeta; split; [vm_compute; reflexivity|].
  apply (loop_queues_canonical_records Strptime.strptime
           [JDict sample_record; JInt 4; JDict blank_record] empty_world).
  vm_compute; reflexivity.
Defined.

Lemma records_before_a_failure_stay_queued_witness :
  let w1 := snd (process_items Strptime.strptime [JDict sample_record] empty_world) in
  process_items Strptime.strptime [JDict sample_record] empty_world = (Ok tt, w1)
  /\ is_str (dict_get null_pubdate_record (pystr "pubdate") (JStr [])) = false
  /\ process_items Strptime.strptime
       ([JDict sample_record] ++ JDict null_pubdate_record :: [JDict blank_record])
       empty_world =
     (Raise AttributeError,
      extend w1 [(INFO, MProcessItem (JDict null_pubdate_record))] [] []).
Proof.
  cbv zeta; split; [vm_compute; reflexivity | split; [reflexivity|]].
  apply (records_before_a_failure_stay_queued Strptime.strptime
           [JDict sample_record] [JDict blank_record] null_pubdate_record
           empty_world);
    [vm_compute; reflexivity | reflexivity].
Defined.

Lemma session_reply_without_id_raises_witness :
  let no_key := Responds (Text_of (JDict [(pystr "error", JStr (pystr "bad key"))])) in
  let a_list := Responds (Text_of (JList [JStr (pystr "s1")])) in
  request_ok (session_request sample_prefs) = true
  /\ create_session (service sample_prefs no_key session_s1) sample_prefs empty_world =
     (Raise (KeyError (pystr "session_id")),
      extend empty_world [(INFO, MSessionStart)] [session_request sample_prefs] [])
  /\ create_session (service sample_prefs a_list session_s1) sample_prefs empty_world =
     (Raise TypeError,
      extend empty_world [(INFO, MSessionStart)] [session_request sample_prefs] []).
Proof.
  cbv zeta.
  assert (Hok : request_ok (session_request sample_prefs) = true)
    by (vm_compute; reflexivity).
  split; [exact Hok | split].
  - apply (proj1 (session_reply_without_id_raises
                    (service sample_prefs
                       (Responds (Text_of (JDict [(pystr "error", JStr (pystr "bad key"))])))
                       session_s1)
                    sample_prefs empty_world Hok)
                 [(pystr "error", JStr (pystr "bad key"))]);
      vm_compute; reflexivity.
  - apply (proj2 (session_reply_without_id_raises
                    (service sample_prefs
                       (Responds (Text_of (JList [JStr (pystr "s1")])))
                       session_s1)
                    sample_prefs empty_world Hok)
                 (JList [JStr (pystr "s1")]));
      vm_compute; reflexivity.
Defined.

Lemma retrieve_reply_of_wrong_shape_raises_witness :
  let run reply :=
    retrieve_data (service sample_prefs session_s1 reply) sample_prefs
                  (JStr (pystr "s1")) (pystr "123") FIELDS sample_url empty_world in
  request_ok sample_retrieve_request = true
  /\ (exists logs,
      run (Responds (Garbled (pystr "<html>"))) =
      (Raise JSONDecodeError, extend empty_world logs [sample_retrieve_request] []))
  /\ (exists logs,
         run (Responds (Text_of (JList []))) =
         (Raise AttributeError, extend empty_world logs [sample_retrieve_request] []))
  /\ (exists logs,
         run (result_of JNull) =
         (Raise TypeError, extend empty_world logs [sample_retrieve_request] [])).
Proof.
  cbv zeta.
  assert (Hok : request_ok (retrieve_request sample_prefs (JStr (pystr "s1"))
                              (pystr "123") FIELDS sample_url
                              (effective_actions sample_prefs)) = true)
    by (vm_compute; reflexivity).
  split; [vm_compute; reflexivity | split; [|split]].
  - apply (proj1 (retrieve_reply_of_wrong_shape_raises
                    (service sample_prefs session_s1
                             (Responds (Garbled (pystr "<html>"))))
                    sample_prefs (JStr (pystr "s1")) (pystr "123") FIELDS
                    sample_url empty_world Hok) (pystr "<html>")).
    vm_compute; reflexivity.
  - apply (proj1 (proj2 (retrieve_reply_of_wrong_shape_raises
                    (service sample_prefs session_s1
                             (Responds (Text_of (JList []))))
                    sample_prefs (JStr (pystr "s1")) (pystr "123") FIELDS
                    sample_url empty_world Hok)) (JList []));
      [vm_compute; reflexivity | reflexivity].
  - apply (proj2 (proj2 (retrieve_reply_of_wrong_shape_raises
                    (service sample_prefs session_s1 (result_of JNull))
                    sample_prefs (JStr (pystr "s1")) (pystr "123") FIELDS
                    sample_url empty_world Hok)) [(pystr "result", JNull)]);
      [vm_compute; reflexivity | reflexivity].
Defined.

Lemma retrieve_returns_the_result_value_witness :
  let rd := [(pystr "status", JStr (pystr "ok"))] in
  let urlopen := service sample_prefs session_s1 (Responds (Text_of (JDict rd))) in
  request_ok sample_retrieve_request = true
  /\ urlopen sample_retrieve_request = Responds (Text_of (JDict rd))
  /\ py_len (dict_get rd (pystr "result") (JList [])) = Ok 0%nat
  /\ retrieve_data urlopen sample_prefs (JStr (pystr "s1")) (pystr "123") FIELDS
                   sample_url empty_world =
     (Ok (dict_get rd (pystr "result") (JList [])),
      extend empty_world
        ([(INFO, MRetrieveStart sample_url)] ++ actions_log sample_prefs
         ++ [(INFO, MRawResponse (JDict rd)); (INFO, MRetrieved 0)])
        [sample_retrieve_request] [])
  /\ (assoc (pystr "result") rd = None ->
      dict_get rd (pystr "result") (JList []) = JList [] /\ 0%nat = 0%nat).
Proof.
  cbv zeta; split; [vm_compute; reflexivity|].
  split; [vm_compute; reflexivity | split; [reflexivity|]].
  apply (retrieve_returns_the_result_value
           (service sample_prefs session_s1
              (Responds (Text_of (JDict [(pystr "status", JStr (pystr "ok"))]))))
           sample_prefs (JStr (pystr "s1")) (pystr "123") FIELDS sample_url
           [(pystr "status", JStr (pystr "ok"))] 0 empty_world);
    [vm_compute; reflexivity | vm_compute; reflexivity | reflexivity].
Defined.

Lemma configured_command_overrides_query_witness :
  let urlopen := service sample_prefs session_s1 (result_of (JList [])) in
  str_truthy (cmd sample_prefs) = true
  /\ retrieve_data urlopen sample_prefs (JStr (pystr "s1")) (pystr "123") FIELDS
                   sample_url empty_world =
     retrieve_data urlopen sample_prefs (JStr (pystr "s1")) (pystr "Go") FIELDS
                   sample_url empty_world.
Proof.
  cbv zeta; split; [reflexivity|].
  apply (configured_command_overrides_query
           (service sample_prefs session_s1 (result_of (JList [])))
           sample_prefs (JStr (pystr "s1")) (pystr "123") (pystr "Go") FIELDS
           sample_url empty_world).
  reflexivity.
Defined.

Lemma retrieval_URLError_ends_identify_witness :
  let urlopen := service sample_prefs session_s1 (Raises (HTTPError 502)) in
  identify Strptime.strptime urlopen sample_prefs
           sample_title sample_authors sample_identifiers empty_world =
  (Ok tt,
   extend empty_world
     (log_before_retrieval (JStr (pystr "s1")) (pystr "123")
                           sample_title sample_authors sample_url (pystr "123")
      ++ [(INFO, MRetrieveStart sample_url)] ++ actions_log sample_prefs
      ++ [(ERROR, MRetrieveHttpError (HTTPError 502)); (ERROR, MRetrieveFailed)])
     [session_request sample_prefs; sample_retrieve_request] []).
Proof.
  cbv zeta.
  apply (retrieval_URLError_ends_identify Strptime.strptime
           (service sample_prefs session_s1 (Raises (HTTPError 502)))
           sample_prefs sample_title sample_authors sample_identifiers
           empty_world session_s1_dict (JStr (pystr "s1"))
           sample_format_params sample_url (pystr "123") (HTTPError 502));
    vm_compute; reflexivity.
Defined.

Lemma identify_queues_the_retrieved_records_witness :
  let items := [JInt 4; JDict blank_record] in
  let rd := [(pystr "result", JList (JDict sample_record :: items))] in
  let urlopen := service sample_prefs session_s1 (Responds (Text_of (JDict rd))) in
  exists loop_log,
    identify Strptime.strptime urlopen sample_prefs
             sample_title sample_authors sample_identifiers empty_world =
    (Ok tt,
     extend empty_world
       (log_before_retrieval (JStr (pystr "s1")) (pystr "123")
                             sample_title sample_authors sample_url (pystr "123")
        ++ [(INFO, MRetrieveStart sample_url)] ++ actions_log sample_prefs
        ++ [(INFO, MRawResponse (JDict rd));
            (INFO, MRetrieved (S (List.length items)))]
        ++ loop_log ++ [(INFO, MIdentifyDone)])
       [session_request sample_prefs; sample_retrieve_request]
       (List.map (canonical Strptime.strptime)
                 (mappings (JDict sample_record :: items)))).
Proof.
  cbv zeta.
  apply (identify_queues_the_retrieved_records Strptime.strptime
           (service sample_prefs session_s1
              (Responds (Text_of (JDict
                 [(pystr "result",
                   JList [JDict sample_record; JInt 4; JDict blank_record])]))))
           sample_prefs sample_title sample_authors sample_identifiers
           empty_world session_s1_dict
           [(pystr "result", JList [JDict sample_record; JInt 4; JDict blank_record])]
           (JStr (pystr "s1")) sample_format_params sample_url (pystr "123")
           (JDict sample_record) [JInt 4; JDict blank_record]);
    vm_compute; reflexivity.
Defined.

Lemma result_that_is_not_a_list_yields_nothing_witness :
  let rd := [(pystr "result", JDict sample_record)] in
  let urlopen := service sample_prefs session_s1 (Responds (Text_of (JDict rd))) in
  exists items,
    py_iter (dict_get rd (pystr "result") (JList [])) = Ok items
    /\ identify Strptime.strptime urlopen sample_prefs
                sample_title sample_authors sample_identifiers empty_world =
       (Ok tt,
        extend empty_world
          (log_before_retrieval (JStr (pystr "s1")) (pystr "123")
                                sample_title sample_authors sample_url (pystr "123")
           ++ [(INFO, MRetrieveStart sample_url)] ++ actions_log sample_prefs
           ++ [(INFO, MRawResponse (JDict rd)); (INFO, MRetrieved 4)]
           ++ skipped_log items ++ [(INFO, MIdentifyDone)])
          [session_request sample_prefs; sample_retrieve_request] []).
Proof.
  cbv zeta.
  apply (result_that_is_not_a_list_yields_nothing Strptime.strptime
           (service sample_prefs session_s1
              (Responds (Text_of (JDict [(pystr "result", JDict sample_record)]))))
           sample_prefs sample_title sample_authors sample_identifiers
           empty_world session_s1_dict
           [(pystr "result", JDict sample_record)]
           (JStr (pystr "s1")) sample_format_params sample_url (pystr "123") 4);
    vm_compute; reflexivity.
Defined.

Lemma unencodable_query_escapes_identify_witness :
  let urlopen := service sample_prefs session_s1 (result_of (JList [])) in
  build_format_params (pystr "123") surrogate_title sample_authors
  = Raise UnicodeEncodeError
  /\ UnicodeEncodeError = UnicodeEncodeError
  /\ identify Strptime.strptime urlopen sample_prefs
              surrogate_title sample_authors sample_identifiers empty_world =
     (Raise UnicodeEncodeError,
      extend empty_world
        [(INFO, MIdentifyStart); (INFO, MSessionStart);
         (INFO, MSessionCreated (JStr (pystr "s1")));
         (INFO, MQuery (pystr "123") surrogate_title sample_authors)]
        [session_request sample_prefs] []).
Proof.
  cbv zeta; split; [vm_compute; reflexivity|].
  apply (unencodable_query_escapes_identify Strptime.strptime
           (service sample_prefs session_s1 (result_of (JList [])))
           sample_prefs surrogate_title sample_authors sample_identifiers
           empty_world session_s1_dict (JStr (pystr "s1")) UnicodeEncodeError);
    vm_compute; reflexivity.
Defined.

(** X20.  With the template the plugin ships as its default, URL formatting
    cannot fail: for every query whose fields can be encoded, the URL is the
    fixed search address followed by the encoded ISBN, title and first
    author, separated by single blanks that are left unencoded. *)
Theorem default_template_always_formats
        (isbn : str) (title : option str) (authors : option (list str))
        (fp : list (str * str)) :
  build_format_params isbn title authors = Ok fp ->
  exists qi qt qa,
    fp = [(pystr "isbn", qi); (pystr "title", qt); (pystr "author", qa)]
    /\ str_format (request_url sample_prefs) fp =
       Ok (pystr "https://pdc.capub.cn/search.html#/quick?type=%E5%9B%BE%E4%B9%A6&search="
           ++ qi ++ [SPACE] ++ qt ++ [SPACE] ++ qa).
Proof.
  rewrite build_format_params_encodes; unfold res_bind.
  destruct (encoded_or_empty (Some isbn)) as [qi|]; [|discriminate].
  destruct (encoded_or_empty title) as [qt|]; [|discriminate].
  destruct (encoded_or_empty (first_author authors)) as [qa|]; [|discriminate].
  intros H; inversion H; subst fp; exists qi, qt, qa; split; [reflexivity|].
  rewrite str_format_fills by reflexivity.
  cbn [request_url sample_prefs flat_map fill].
  change (str_eqb (pystr "isbn") (pystr "isbn")) with true.
  change (str_eqb (pystr "title") (pystr "isbn")) with false.
  change (str_eqb (pystr "title") (pystr "title")) with true.
  change (str_eqb (pystr "author") (pystr "isbn")) with false.
  change (str_eqb (pystr "author") (pystr "title")) with false.
  change (str_eqb (pystr "author") (pystr "author")) with true.
  cbv iota; rewrite app_nil_r; reflexivity.
Qed.

Lemma default_template_always_formats_witness :
  build_format_params (pystr "123") sample_title sample_authors
  = Ok sample_format_params
  /\ exists qi qt qa,
      sample_format_params
      = [(pystr "isbn", qi); (pystr "title", qt); (pystr "author", qa)]
      /\ str_format (request_url sample_prefs) sample_format_params =
         Ok (pystr "https://pdc.capub.cn/search.html#/quick?type=%E5%9B%BE%E4%B9%A6&search="
             ++ qi ++ [SPACE] ++ qt ++ [SPACE] ++ qa).
Proof.
  split; [vm_compute; reflexivity|].
  apply (default_template_always_formats (pystr "123") sample_title sample_authors).
  vm_compute; reflexivity.
Defined.
